(** * API Cooperativa de Agricultores: validation and in-memory store

    A shallow embedding of [main.py]: the pydantic models [Categoria],
    [Producto] and [ProductoCreate] with their field constraints and
    validators, and the handlers working on the table [productos_db].

    Conventions of the embedding.
    - A Python [str] is the list of its code points, so [len] is [length].
    - The string methods [strip], [lower] and [title] follow CPython's
      algorithms and read the character properties from a table
      ([Unicode.Data]).  Statements that do not depend on the rows of the
      table are proved for every table; [Unicode.cpython] gives the rows of
      the ASCII range and of U+01F0 and U+030C.
    - A Python [float] is a binary64 value ([spec_float], precision 53).
    - A Python [int] is a [Z]; a [datetime] is a [Z] clock reading.
    - The models are evaluated as pydantic (v1 API, the one [main.py]
      imports) does: for each field, the constraints declared in [Field]
      come first and stop at the first failure, the [@validator] of the field
      runs only when they pass, and the failures of all fields are collected
      in field order.
    - [productos_db] is a Python dict: an association list in insertion
      order, which is the order [values()] enumerates. *)

From Stdlib Require Import String Ascii.
From Stdlib Require Import ZArith NArith List Bool Lia.
From Stdlib Require Import SpecFloat.
Import ListNotations.

(** ** Python strings *)

Module Unicode.

Definition str := list N.

Definition str_eq_dec : forall a b : str, {a = b} + {a <> b} :=
  list_eq_dec N.eq_dec.

Definition str_eqb (a b : str) : bool :=
  if str_eq_dec a b then true else false.

(** A literal written with ASCII characters. *)
Fixpoint lit (s : string) : str :=
  match s with
  | EmptyString => []
  | String a r => N_of_ascii a :: lit r
  end.
Arguments lit s%_string.

(** The character properties CPython's string methods consult
    ([Py_UNICODE_ISSPACE], [_PyUnicode_IsCased], [_PyUnicode_IsCaseIgnorable],
    [_PyUnicode_ToLowerFull], [_PyUnicode_ToTitleFull]). *)
Record Data := {
  is_space : N -> bool;
  is_cased : N -> bool;
  is_case_ignorable : N -> bool;
  to_lower_full : N -> str;
  to_title_full : N -> str
}.

Section Methods.
Variable U : Data.

Fixpoint lstrip (s : str) : str :=
  match s with
  | [] => []
  | c :: r => if is_space U c then lstrip r else s
  end.

Definition rstrip (s : str) : str := rev (lstrip (rev s)).

(** [s.strip()] *)
Definition strip (s : str) : str := rstrip (lstrip s).

Fixpoint skip_ignorable (s : str) : option N :=
  match s with
  | [] => None
  | c :: r => if is_case_ignorable U c then skip_ignorable r else Some c
  end.

(** U+03A3 lowers to the final sigma U+03C2 when a cased character comes
    before it and none after it, case-ignorable characters skipped.
    [before] is the text to the left, nearest character first. *)
Definition handle_capital_sigma (before after : str) : N :=
  let final_sigma :=
    match skip_ignorable before with
    | Some c => is_cased U c
    | None => false
    end in
  let final_sigma :=
    if final_sigma then
      match skip_ignorable after with
      | Some c => negb (is_cased U c)
      | None => true
      end
    else false in
  if final_sigma then 962%N else 963%N.

Definition lower_ucs4 (before : str) (c : N) (after : str) : str :=
  if (c =? 931)%N then [handle_capital_sigma before after]
  else to_lower_full U c.

Fixpoint do_lower (before s : str) : str :=
  match s with
  | [] => []
  | c :: r => lower_ucs4 before c r ++ do_lower (c :: before) r
  end.

(** [s.lower()] *)
Definition lower (s : str) : str := do_lower [] s.

Fixpoint do_title (previous_is_cased : bool) (before s : str) : str :=
  match s with
  | [] => []
  | c :: r =>
      (if previous_is_cased then lower_ucs4 before c r
       else to_title_full U c)
      ++ do_title (is_cased U c) (c :: before) r
  end.

(** [s.title()] *)
Definition title (s : str) : str := do_title false [] s.
End Methods.

(** Rows of the ASCII range. *)
Definition ascii_space (c : N) : bool :=
  ((9 <=? c) && (c <=? 13) || (28 <=? c) && (c <=? 31) || (c =? 32))%N.

Definition ascii_upper (c : N) : bool := ((65 <=? c) && (c <=? 90))%N.

Definition ascii_lower (c : N) : bool := ((97 <=? c) && (c <=? 122))%N.

(** The rows of U+0000..U+007F, of U+01F0 (small j with caron, whose title
    case is the two code points U+004A U+030C) and of U+030C (combining
    caron).  A code point outside these is given the row of a character
    that is neither white space nor cased. *)
Definition cpython : Data := {|
  is_space := ascii_space;
  is_cased := fun c => ascii_upper c || ascii_lower c || (c =? 496)%N;
  is_case_ignorable := fun c =>
    ((c =? 39) || (c =? 46) || (c =? 58) || (c =? 94) || (c =? 96)
     || (c =? 780))%N;
  to_lower_full := fun c => if ascii_upper c then [(c + 32)%N] else [c];
  to_title_full := fun c =>
    if ascii_lower c then [(c - 32)%N]
    else if (c =? 496)%N then [74%N; 780%N] else [c]
|}.

Definition is_ascii (s : str) : bool := forallb (fun c => (c <? 128)%N) s.

End Unicode.

Import Unicode.

(** ** Python floats *)

Module Float.

Definition float := spec_float.

Definition prec : Z := 53.
Definition emax : Z := 1024.

Definition of_Z (n : Z) : float := binary_normalize prec emax n 0 false.

Definition zero : float := S754_zero false.

Definition ltb : float -> float -> bool := SFltb.
Definition leb : float -> float -> bool := SFleb.

(** The integer nearest to [100 * m * 2^e], an exact tie going to the even
    one. *)
Definition nearest_hundredths (m : positive) (e : Z) : Z :=
  match e with
  | Zneg d =>
      let n := (100 * Zpos m)%Z in
      let den := (2 ^ Zpos d)%Z in
      let q := (n / den)%Z in
      let r := (n mod den)%Z in
      match (2 * r ?= den)%Z with
      | Lt => q
      | Gt => (q + 1)%Z
      | Eq => if Z.even q then q else (q + 1)%Z
      end
  | _ => (100 * Zpos m * 2 ^ e)%Z
  end.

(** [round(x, 2)]: the exact value of [x] is rounded to the nearest multiple
    of 1/100 (half to even), and the result is the binary64 value nearest to
    that decimal. *)
Definition round2 (x : float) : float :=
  match x with
  | S754_finite s m e =>
      match nearest_hundredths m e with
      | Zpos k => SFdiv prec emax (S754_finite s k 0) (S754_finite false 100 0)
      | _ => S754_zero s
      end
  | _ => x
  end.

End Float.

(** ** Validation outcomes *)

(** The kinds of validation failure.  The constraints and messages of
    [main.py] map to them as follows: [min_length=1] and "no puede estar
    vacío" are [EmptyField]; [max_length] is [TooLong]; [gt], [ge], [le] and
    the messages of [validar_precio] and [validar_stock] are [OutOfRange];
    [min_items=1] and "debe tener al menos una categoría" are [EmptyField];
    [max_items=10] and "más de 10 categorías" are [TooMany]; "categorías
    duplicadas" is [DuplicateCategory]. *)
Inductive ValidationError :=
  | EmptyField | TooLong | OutOfRange | TooMany | DuplicateCategory.

(** What the validation of one field gives: the value, or the failure that
    was raised. *)
Inductive result (A : Type) :=
  | Ok (a : A)
  | Err (e : ValidationError).
Arguments Ok {A} a.
Arguments Err {A} e.

Definition bind {A B} (r : result A) (f : A -> result B) : result B :=
  match r with
  | Ok a => f a
  | Err e => Err e
  end.

Notation "r >>= f" := (bind r f) (at level 50, left associativity).

Definition errors {A} (r : result A) : list ValidationError :=
  match r with
  | Ok _ => []
  | Err e => [e]
  end.

(** *** The constraints of [Field] *)

(** [str] with [min_length] and [max_length]. *)
Definition constr (min_length : nat) (max_length : nat) (v : str)
  : result str :=
  if (length v <? min_length)%nat then Err EmptyField
  else if (max_length <? length v)%nat then Err TooLong
  else Ok v.

(** [float] with [gt] and [le]; a NaN fails the first comparison. *)
Definition confloat (gt le : Float.float) (v : Float.float)
  : result Float.float :=
  if negb (Float.ltb gt v) then Err OutOfRange
  else if negb (Float.leb v le) then Err OutOfRange
  else Ok v.

(** [int] with [ge] and [le]. *)
Definition conint (ge le : Z) (v : Z) : result Z :=
  if negb (ge <=? v)%Z then Err OutOfRange
  else if negb (v <=? le)%Z then Err OutOfRange
  else Ok v.

(** [List] with [min_items] and [max_items]; the length is checked before
    the items are looked at. *)
Definition conlist {A} (min_items max_items : nat) (v : list A)
  : result (list A) :=
  if (length v <? min_items)%nat then Err EmptyField
  else if (max_items <? length v)%nat then Err TooMany
  else Ok v.

(** ** The models *)

Definition datetime := Z.

Module Categoria.

(** The keyword arguments a [Categoria] is built from. *)
Record raw := { raw_nombre : str; raw_descripcion : option str }.

Record t := { nombre : str; descripcion : option str }.

Section Validators.
Variable U : Data.

Definition validar_nombre_categoria (v : str) : result str :=
  match strip U v with
  | [] => Err EmptyField
  | _ :: _ => Ok (title U (strip U v))
  end.

Definition field_nombre (v : str) : result str :=
  constr 1 50 v >>= validar_nombre_categoria.

(** [Optional[str]] with [max_length=200] and no validator: [None]
    is kept, a string is only measured. *)
Definition field_descripcion (v : option str) : result (option str) :=
  match v with
  | None => Ok None
  | Some d =>
      if (200 <? length d)%nat then Err TooLong else Ok (Some d)
  end.

Definition init (d : raw) : list ValidationError + t :=
  match field_nombre (raw_nombre d),
        field_descripcion (raw_descripcion d) with
  | Ok n, Ok ds => inr {| nombre := n; descripcion := ds |}
  | rn, rd => inl (errors rn ++ errors rd)
  end.
End Validators.

End Categoria.

Module Producto.

Record t := {
  id : option str;
  nombre : str;
  precio : Float.float;
  categorias : list Categoria.t;
  stock : Z;
  fecha_creacion : option datetime
}.

Definition diez_mil : Float.float := Float.of_Z 10000.

Definition validar_precio (v : Float.float) : result Float.float :=
  if Float.leb v Float.zero then Err OutOfRange
  else if Float.ltb diez_mil v then Err OutOfRange
  else Ok (Float.round2 v).

Definition validar_stock (v : Z) : result Z :=
  if (v <? 0)%Z then Err OutOfRange
  else if (10000 <? v)%Z then Err OutOfRange
  else Ok v.

Definition field_precio (v : Float.float) : result Float.float :=
  confloat Float.zero diez_mil v >>= validar_precio.

Definition field_stock (v : Z) : result Z :=
  conint 0 10000 v >>= validar_stock.

Section Validators.
Variable U : Data.

Definition validar_nombre_producto (v : str) : result str :=
  match strip U v with
  | [] => Err EmptyField
  | _ :: _ => Ok (title U (strip U v))
  end.

(** [set(nombres)] holds each name once. *)
Definition validar_categorias (v : list Categoria.t)
  : result (list Categoria.t) :=
  match v with
  | [] => Err EmptyField
  | _ :: _ =>
      if (10 <? length v)%nat then Err TooMany
      else
        let nombres := map (fun cat => lower U (Categoria.nombre cat)) v in
        if negb (length nombres =? length (nodup str_eq_dec nombres))%nat
        then Err DuplicateCategory
        else Ok v
  end.

Definition field_nombre (v : str) : result str :=
  constr 1 100 v >>= validar_nombre_producto.

(** The items are [Categoria] instances already: they are taken as
    they are. *)
Definition field_categorias (v : list Categoria.t)
  : result (list Categoria.t) :=
  conlist 1 10 v >>= validar_categorias.

(** [Producto(id=..., nombre=..., precio=..., categorias=..., stock=...,
    fecha_creacion=...)] *)
Definition init (id_ : option str) (nombre_ : str)
    (precio_ : Float.float) (categorias_ : list Categoria.t)
    (stock_ : Z) (fecha_creacion_ : option datetime)
  : list ValidationError + t :=
  match field_nombre nombre_, field_precio precio_,
        field_categorias categorias_, field_stock stock_ with
  | Ok n, Ok p, Ok c, Ok s =>
      inr {| id := id_; nombre := n; precio := p; categorias := c;
             stock := s; fecha_creacion := fecha_creacion_ |}
  | rn, rp, rc, rs => inl (errors rn ++ errors rp ++ errors rc ++ errors rs)
  end.
End Validators.

End Producto.

Module ProductoCreate.

(** The request body. *)
Record raw := {
  raw_nombre : str;
  raw_precio : Float.float;
  raw_categorias : list Categoria.raw;
  raw_stock : Z
}.

Record t := {
  nombre : str;
  precio : Float.float;
  categorias : list Categoria.t;
  stock : Z
}.

Section Validators.
Variable U : Data.

(** Each item is built with [Categoria.init]; the failures of all items
    are reported together. *)
Fixpoint items (v : list Categoria.raw)
  : list ValidationError + list Categoria.t :=
  match v with
  | [] => inr []
  | d :: r =>
      match Categoria.init U d, items r with
      | inr c, inr cs => inr (c :: cs)
      | inl e, inr _ => inl e
      | inr _, inl es => inl es
      | inl e, inl es => inl (e ++ es)
      end
  end.

Definition field_categorias (v : list Categoria.raw)
  : list ValidationError + list Categoria.t :=
  match conlist 1 10 v with
  | Err e => inl [e]
  | Ok v => items v
  end.

Definition init (d : raw) : list ValidationError + t :=
  match constr 1 100 (raw_nombre d),
        confloat Float.zero Producto.diez_mil (raw_precio d),
        field_categorias (raw_categorias d),
        conint 0 10000 (raw_stock d) with
  | Ok n, Ok p, inr c, Ok s =>
      inr {| nombre := n; precio := p; categorias := c; stock := s |}
  | rn, rp, rc, rs =>
      inl (errors rn ++ errors rp
           ++ match rc with inl e => e | inr _ => [] end ++ errors rs)
  end.
End Validators.

End ProductoCreate.

(** ** The table [productos_db] and the handlers *)

Definition dict := list (str * Producto.t).

(** [db[k]], or [None] when [k not in db]. *)
Fixpoint dict_get (db : dict) (k : str) : option Producto.t :=
  match db with
  | [] => None
  | (k', p) :: r => if str_eqb k' k then Some p else dict_get r k
  end.

(** [db[k] = p]: an existing key keeps its place, a new one goes last. *)
Fixpoint dict_set (db : dict) (k : str) (p : Producto.t) : dict :=
  match db with
  | [] => [(k, p)]
  | (k', p') :: r =>
      if str_eqb k' k then (k', p) :: r else (k', p') :: dict_set r k p
  end.

(** [del db[k]] *)
Definition dict_del (db : dict) (k : str) : dict :=
  filter (fun kv => negb (str_eqb (fst kv) k)) db.

(** [db.values()] *)
Definition dict_values (db : dict) : list Producto.t := map snd db.

(** What a handler raises: the 404 [HTTPException], or the validation
    error of [Producto]. *)
Inductive Error :=
  | NotFound
  | Invalid (errs : list ValidationError).

Section Handlers.
Variable U : Data.

(** [producto_id] stands for the value of [str(uuid.uuid4())] and [ahora]
    for that of [datetime.now()]. *)
Definition crear_producto (productos_db : dict) (producto_id : str)
    (ahora : datetime) (producto : ProductoCreate.t)
  : (Error + Producto.t) * dict :=
  match Producto.init U (Some producto_id)
          (ProductoCreate.nombre producto) (ProductoCreate.precio producto)
          (ProductoCreate.categorias producto) (ProductoCreate.stock producto)
          (Some ahora) with
  | inl errs => (inl (Invalid errs), productos_db)
  | inr producto_completo =>
      (inr producto_completo,
       dict_set productos_db producto_id producto_completo)
  end.

Definition obtener_productos (productos_db : dict) : list Producto.t :=
  dict_values productos_db.

Definition obtener_producto (productos_db : dict) (producto_id : str)
  : Error + Producto.t :=
  match dict_get productos_db producto_id with
  | None => inl NotFound
  | Some p => inr p
  end.

Definition actualizar_producto (productos_db : dict) (producto_id : str)
    (producto : ProductoCreate.t) : (Error + Producto.t) * dict :=
  match dict_get productos_db producto_id with
  | None => (inl NotFound, productos_db)
  | Some actual =>
      match Producto.init U (Some producto_id)
              (ProductoCreate.nombre producto)
              (ProductoCreate.precio producto)
              (ProductoCreate.categorias producto)
              (ProductoCreate.stock producto)
              (Producto.fecha_creacion actual) with
      | inl errs => (inl (Invalid errs), productos_db)
      | inr producto_actualizado =>
          (inr producto_actualizado,
           dict_set productos_db producto_id producto_actualizado)
      end
  end.

Definition eliminar_producto (productos_db : dict) (producto_id : str)
  : (Error + unit) * dict :=
  match dict_get productos_db producto_id with
  | None => (inl NotFound, productos_db)
  | Some _ => (inr tt, dict_del productos_db producto_id)
  end.

(** The inner loop: [true] when some [categoria] reaches the [append] and
    the [break]. *)
Fixpoint alguna_categoria (categorias : list Categoria.t)
    (nombre_categoria : str) : bool :=
  match categorias with
  | [] => false
  | categoria :: r =>
      if str_eqb (lower U (Categoria.nombre categoria))
                 (lower U nombre_categoria)
      then true
      else alguna_categoria r nombre_categoria
  end.

(** The outer loop, [productos_filtrados] being the list built so far. *)
Fixpoint recorrer (productos : list Producto.t) (nombre_categoria : str)
    (productos_filtrados : list Producto.t) : list Producto.t :=
  match productos with
  | [] => productos_filtrados
  | producto :: r =>
      recorrer r nombre_categoria
        (if alguna_categoria (Producto.categorias producto) nombre_categoria
         then productos_filtrados ++ [producto]
         else productos_filtrados)
  end.

Definition obtener_productos_por_categoria (productos_db : dict)
    (nombre_categoria : str) : list Producto.t :=
  recorrer (dict_values productos_db) nombre_categoria [].

(** The requests that write to the table, and the table they leave. *)
Inductive request :=
  | Crear (producto_id : str) (ahora : datetime) (producto : ProductoCreate.t)
  | Actualizar (producto_id : str) (producto : ProductoCreate.t)
  | Eliminar (producto_id : str).

Definition step (productos_db : dict) (r : request) : dict :=
  match r with
  | Crear i a p => snd (crear_producto productos_db i a p)
  | Actualizar i p => snd (actualizar_producto productos_db i p)
  | Eliminar i => snd (eliminar_producto productos_db i)
  end.

Definition run (productos_db : dict) (rs : list request) : dict :=
  fold_left step rs productos_db.
End Handlers.

(** ** Notions used in the statements *)

(** Two names are equal ignoring case when [lower] makes them equal, the
    comparison [main.py] writes. *)
Definition eq_ignoring_case (U : Data) (a b : str) : Prop :=
  lower U a = lower U b.

(** The list [nombres] of [validar_categorias]. *)
Definition nombres (U : Data) (v : list Categoria.t) : list str :=
  map (fun cat => lower U (Categoria.nombre cat)) v.

(** The filter the loops of [obtener_productos_por_categoria] compute: a
    product is kept when one of its categories has the asked name, ignoring
    case. *)
Definition matches (U : Data) (nombre_categoria : str)
    (producto : Producto.t) : bool :=
  existsb (fun categoria =>
             str_eqb (lower U (Categoria.nombre categoria))
                     (lower U nombre_categoria))
          (Producto.categorias producto).

(** Every entry of a table built by the handlers is filed under the
    identifier it carries. *)
Definition keyed (db : dict) : Prop :=
  forall k p, dict_get db k = Some p -> Producto.id p = Some k.

(** [r] does not create the identifier [k]. *)
Definition not_creating (k : str) (r : request) : Prop :=
  match r with
  | Crear i _ _ => i <> k
  | _ => True
  end.

Definition fixed_by (f : N -> str) (x : N) : bool :=
  match f x with
  | [y] => (y =? x)%N
  | _ => false
  end.

Definition same_class (U : Data) (x c : N) : bool :=
  Bool.eqb (is_cased U x) (is_cased U c)
  && Bool.eqb (is_space U x) (is_space U c).

Definition lower_stable (U : Data) (c l : N) : bool :=
  negb (l =? 931)%N && fixed_by (to_lower_full U) l && same_class U l c.

(** A character is simply cased when its title case and its lower case are
    single characters, which the same mapping leaves as they are and which
    are cased and white space exactly when the character is.  For U+03A3
    the lower case is either of the two small sigmas. *)
Definition simple_casing (U : Data) (c : N) : bool :=
  match to_title_full U c with
  | [t] => fixed_by (to_title_full U) t && same_class U t c
  | _ => false
  end
  && (if (c =? 931)%N then lower_stable U c 962 && lower_stable U c 963
      else match to_lower_full U c with
           | [l] => lower_stable U c l
           | _ => false
           end).

(** [true] when the text does not begin with white space. *)
Definition hd_ok (U : Data) (s : str) : bool :=
  match map (is_space U) s with
  | [] => true
  | b :: _ => negb b
  end.

(** The price of [k] hundredths, as a float: the binary64 value nearest to
    [k / 100], which is what [round(v, 2)] returns when [k] is the integer
    nearest to [100 * v]. *)
Definition cents (k : Z) : Float.float :=
  match k with
  | Zpos k =>
      SFdiv Float.prec Float.emax (S754_finite false k 0)
        (S754_finite false 100 0)
  | _ => Float.zero
  end.

(** The fields of a stored product, as a request sends them. *)
Definition fields_of (p : Producto.t) : ProductoCreate.t :=
  {| ProductoCreate.nombre := Producto.nombre p;
     ProductoCreate.precio := Producto.precio p;
     ProductoCreate.categorias := Producto.categorias p;
     ProductoCreate.stock := Producto.stock p |}.

Definition request_fields (r : request) : option ProductoCreate.t :=
  match r with
  | Crear _ _ producto => Some producto
  | Actualizar _ producto => Some producto
  | Eliminar _ => None
  end.

(** The price a request carries is a binary64 value. *)
Definition binary64_price (r : request) : Prop :=
  match request_fields r with
  | Some producto =>
      valid_binary Float.prec Float.emax (ProductoCreate.precio producto)
      = true
  | None => True
  end.

(** The product name a request carries is made of simply cased
    characters. *)
Definition simple_name (U : Data) (r : request) : Prop :=
  match request_fields r with
  | Some producto =>
      forallb (simple_casing U) (ProductoCreate.nombre producto) = true
  | None => True
  end.

(** [P] holds of every key of the table and the product filed under it. *)
Definition all_entries (P : str -> Producto.t -> Prop) (db : dict) : Prop :=
  forall k p, dict_get db k = Some p -> P k p.

(** ** Sample values *)



Definition cat_frutas : Categoria.raw :=
  {| Categoria.raw_nombre := lit "Frutas";
     Categoria.raw_descripcion := Some (lit "test1") |}.

Definition cat_frutas_mayus : Categoria.raw :=
  {| Categoria.raw_nombre := lit "FRUTAS";
     Categoria.raw_descripcion := Some (lit "test2") |}.

Definition precio_25_5 : Float.float :=
  S754_finite false 7177611906121728 (-48).

Definition body_duplicadas : ProductoCreate.raw :=
  {| ProductoCreate.raw_nombre := lit "Manzana Roja";
     ProductoCreate.raw_precio := precio_25_5;
     ProductoCreate.raw_categorias := [cat_frutas; cat_frutas_mayus];
     ProductoCreate.raw_stock := 100 |}.

Definition frutas (d : str) : Categoria.t :=
  {| Categoria.nombre := lit "Frutas"; Categoria.descripcion := Some d |}.

Definition producto_duplicadas : ProductoCreate.t :=
  {| ProductoCreate.nombre := lit "Manzana Roja";
     ProductoCreate.precio := precio_25_5;
     ProductoCreate.categorias := [frutas (lit "test1"); frutas (lit "test2")];
     ProductoCreate.stock := 100 |}.

Definition cat_huerta : Categoria.raw :=
  {| Categoria.raw_nombre := lit "   verduras frescas   ";
     Categoria.raw_descripcion := Some (lit "   productos de la huerta   ") |}.

Definition precio_0_001 : Float.float :=
  S754_finite false 4611686018427388 (-62).

Definition cat_test : Categoria.raw :=
  {| Categoria.raw_nombre := lit "Test"; Categoria.raw_descripcion := None |}.

Definition body_milesimo : ProductoCreate.raw :=
  {| ProductoCreate.raw_nombre := lit "Test";
     ProductoCreate.raw_precio := precio_0_001;
     ProductoCreate.raw_categorias := [cat_test];
     ProductoCreate.raw_stock := 10 |}.

Definition producto_milesimo : ProductoCreate.t :=
  {| ProductoCreate.nombre := lit "Test";
     ProductoCreate.precio := precio_0_001;
     ProductoCreate.categorias :=
       [{| Categoria.nombre := lit "Test"; Categoria.descripcion := None |}];
     ProductoCreate.stock := 10 |}.

Definition producto_valido : ProductoCreate.t :=
  {| ProductoCreate.nombre := lit "Manzana Roja";
     ProductoCreate.precio := precio_25_5;
     ProductoCreate.categorias := [frutas (lit "Productos frutales frescos")];
     ProductoCreate.stock := 100 |}.

Definition manzana_roja : Producto.t :=
  {| Producto.id := Some (lit "id-1");
     Producto.nombre := lit "Manzana Roja";
     Producto.precio := precio_25_5;
     Producto.categorias := [frutas (lit "Productos frutales frescos")];
     Producto.stock := 100;
     Producto.fecha_creacion := Some 1000%Z |}.

Definition db_1 : dict := [(lit "id-1", manzana_roja)].

Definition producto_verde : ProductoCreate.t :=
  {| ProductoCreate.nombre := lit "manzana verde";
     ProductoCreate.precio := Float.of_Z 30;
     ProductoCreate.categorias := [frutas (lit "Productos frutales frescos")];
     ProductoCreate.stock := 80 |}.

Definition manzana_verde : Producto.t :=
  {| Producto.id := Some (lit "id-1");
     Producto.nombre := lit "Manzana Verde";
     Producto.precio := Float.of_Z 30;
     Producto.categorias := [frutas (lit "Productos frutales frescos")];
     Producto.stock := 80;
     Producto.fecha_creacion := Some 1000%Z |}.

Definition producto_sin_nombre : ProductoCreate.t :=
  {| ProductoCreate.nombre := lit "   ";
     ProductoCreate.precio := Float.of_Z 30;
     ProductoCreate.categorias := [frutas (lit "Productos frutales frescos")];
     ProductoCreate.stock := 80 |}.

Definition body_blank_repeated : ProductoCreate.raw :=
  {| ProductoCreate.raw_nombre := lit "   ";
     ProductoCreate.raw_precio := precio_25_5;
     ProductoCreate.raw_categorias := [cat_frutas; cat_frutas_mayus];
     ProductoCreate.raw_stock := 100 |}.

(** The rows of [cpython] with those of U+00DF (small sharp s, whose title
    case is the two letters "Ss") and of U+1E9E (capital sharp s, whose
    lower case is U+00DF). *)
Definition cpython_sharp_s : Data := {|
  is_space := is_space cpython;
  is_cased := fun c => is_cased cpython c || (c =? 223)%N || (c =? 7838)%N;
  is_case_ignorable := is_case_ignorable cpython;
  to_lower_full := fun c =>
    if (c =? 7838)%N then [223%N] else to_lower_full cpython c;
  to_title_full := fun c =>
    if (c =? 223)%N then [83%N; 115%N] else to_title_full cpython c
|}.

(** The lower case of a character of the ASCII range. *)
Definition ascii_to_lower (c : N) : N :=
  if ascii_upper c then (c + 32)%N else c.

(** A body with the categories U+1E9E and U+00DF, and the [ProductoCreate]
    built from it. *)
Definition body_sharp_s : ProductoCreate.raw :=
  {| ProductoCreate.raw_nombre := lit "Test";
     ProductoCreate.raw_precio := precio_25_5;
     ProductoCreate.raw_categorias :=
       [{| Categoria.raw_nombre := [7838%N];
           Categoria.raw_descripcion := None |};
        {| Categoria.raw_nombre := [223%N];
           Categoria.raw_descripcion := None |}];
     ProductoCreate.raw_stock := 10 |}.

Definition producto_sharp_s : ProductoCreate.t :=
  {| ProductoCreate.nombre := lit "Test";
     ProductoCreate.precio := precio_25_5;
     ProductoCreate.categorias :=
       [{| Categoria.nombre := [7838%N]; Categoria.descripcion := None |};
        {| Categoria.nombre := [83%N; 115%N];
           Categoria.descripcion := None |}];
     ProductoCreate.stock := 10 |}.

(** * Properties *)

(** ** Lemmas on the table *)

Lemma str_eqb_eq (a b : str) : str_eqb a b = true <-> a = b.
Proof.
  unfold str_eqb. destruct (str_eq_dec a b); split; congruence.
Qed.

Lemma str_eqb_refl (a : str) : str_eqb a a = true.
Proof. now apply str_eqb_eq. Qed.

Lemma str_eqb_neq (a b : str) : str_eqb a b = false <-> a <> b.
Proof.
  unfold str_eqb. destruct (str_eq_dec a b); split; congruence.
Qed.

Lemma dict_get_set_same (db : dict) k p :
  dict_get (dict_set db k p) k = Some p.
Proof.
  induction db as [|[k' p'] r IH]; simpl.
  - now rewrite str_eqb_refl.
  - destruct (str_eqb k' k) eqn:E; simpl; rewrite E; auto.
Qed.

Lemma dict_get_set_other (db : dict) k k' p :
  k <> k' -> dict_get (dict_set db k p) k' = dict_get db k'.
Proof.
  intros Hk. induction db as [|[k0 p0] r IH]; simpl.
  - destruct (str_eqb k k') eqn:E; auto. apply str_eqb_eq in E. contradiction.
  - destruct (str_eqb k0 k) eqn:E; simpl.
    + apply str_eqb_eq in E. subst k0.
      destruct (str_eqb k k') eqn:E'; auto.
      apply str_eqb_eq in E'. contradiction.
    + now rewrite IH.
Qed.

Lemma dict_get_del_same (db : dict) k : dict_get (dict_del db k) k = None.
Proof.
  induction db as [|[k' p'] r IH]; simpl; auto.
  destruct (str_eqb k' k) eqn:E; simpl; auto. now rewrite E.
Qed.

Lemma dict_get_del_other (db : dict) k k' :
  k <> k' -> dict_get (dict_del db k) k' = dict_get db k'.
Proof.
  intros Hk. induction db as [|[k0 p0] r IH]; simpl; auto.
  destruct (str_eqb k0 k) eqn:E; simpl.
  - apply str_eqb_eq in E. subst k0.
    destruct (str_eqb k k') eqn:E'; auto.
    apply str_eqb_eq in E'. contradiction.
  - now rewrite IH.
Qed.

(** The keys of a table built by the handlers are all different, so that
    [dict_del] removes the one entry of its key. *)
Lemma dict_set_keys (db : dict) k p :
  NoDup (map fst db) -> NoDup (map fst (dict_set db k p)).
Proof.
  induction db as [|[k' p'] r IH]; simpl; intros H.
  - constructor; [intros []|constructor].
  - inversion H as [|? ? Hk Hr]; subst.
    destruct (str_eqb k' k) eqn:E; simpl; [now constructor|].
    constructor; [|now apply IH].
    intros Hin. apply Hk. clear -Hin E.
    induction r as [|[k0 p0] r IH]; simpl in *.
    + destruct Hin as [->|[]]. now rewrite str_eqb_refl in E.
    + destruct (str_eqb k0 k); simpl in Hin; tauto.
Qed.

Lemma dict_del_keys (db : dict) k :
  NoDup (map fst db) -> NoDup (map fst (dict_del db k)).
Proof.
  induction db as [|[k' p'] r IH]; simpl; intros H; auto.
  inversion H as [|? ? Hk Hr]; subst.
  destruct (str_eqb k' k); simpl; auto.
  constructor; auto. intros Hin. apply Hk.
  unfold dict_del in Hin. rewrite in_map_iff in *.
  destruct Hin as (x & Hx & Hin). apply filter_In in Hin as [Hin _]. eauto.
Qed.

Lemma run_keys (U : Data) rs db :
  NoDup (map fst db) -> NoDup (map fst (run U db rs)).
Proof.
  revert db. induction rs as [|r rs IH]; simpl; intros db H; auto.
  apply IH. destruct r as [i a p|i p|i]; simpl.
  - unfold crear_producto.
    destruct (Producto.init U _ _ _ _ _ _); simpl; auto.
    now apply dict_set_keys.
  - unfold actualizar_producto. destruct (dict_get db i); simpl; auto.
    destruct (Producto.init U _ _ _ _ _ _); simpl; auto.
    now apply dict_set_keys.
  - unfold eliminar_producto. destruct (dict_get db i); simpl; auto.
    now apply dict_del_keys.
Qed.

(** ** Comparison of floats *)

Lemma SFcompare_antisym (a b : Float.float) :
  SFcompare b a = option_map CompOpp (SFcompare a b).
Proof.
  destruct a as [sa|sa| |sa ma ea], b as [sb|sb| |sb mb eb]; simpl;
    try reflexivity;
    try (destruct sa; reflexivity); try (destruct sb; reflexivity);
    try (destruct sa, sb; reflexivity).
  destruct sa, sb; try reflexivity;
    rewrite (Z.compare_antisym ea eb); destruct (ea ?= eb)%Z; simpl;
    try reflexivity; f_equal;
    now rewrite (Pos.compare_cont_antisym ma mb Eq).
Qed.

Lemma ltb_not_leb (a b : Float.float) :
  Float.ltb a b = true -> Float.leb b a = false.
Proof.
  unfold Float.ltb, Float.leb, SFltb, SFleb.
  rewrite (SFcompare_antisym a b).
  destruct (SFcompare a b) as [[]|]; simpl; congruence.
Qed.

Lemma leb_not_ltb (a b : Float.float) :
  Float.leb a b = true -> Float.ltb b a = false.
Proof.
  unfold Float.ltb, Float.leb, SFltb, SFleb.
  rewrite (SFcompare_antisym a b).
  destruct (SFcompare a b) as [[]|]; simpl; congruence.
Qed.

(** ** The price field *)

(** [nearest_hundredths m e] is an integer nearest to [100 * m * 2^e]: it
    is that number when [e] is not negative, and at most one half away from
    it otherwise. *)
Lemma nearest_hundredths_nearest (m : positive) (e : Z) :
  match e with
  | Zneg d =>
      (2 * Z.abs (100 * Zpos m - Float.nearest_hundredths m e * 2 ^ Zpos d)
       <= 2 ^ Zpos d)%Z
  | _ => Float.nearest_hundredths m e = (100 * Zpos m * 2 ^ e)%Z
  end.
Proof.
  destruct e as [|d|d]; try reflexivity.
  unfold Float.nearest_hundredths.
  set (n := (100 * Zpos m)%Z). set (den := (2 ^ Zpos d)%Z).
  assert (Hden : (0 < den)%Z) by (apply Z.pow_pos_nonneg; lia).
  pose proof (Z.div_mod n den ltac:(lia)) as Hn.
  pose proof (Z.mod_pos_bound n den Hden) as Hr.
  set (q := (n / den)%Z) in *. set (r := (n mod den)%Z) in *.
  cbv zeta.
  assert (E1 : (q * den = den * q)%Z) by ring.
  assert (E2 : ((q + 1) * den = den * q + den)%Z) by ring.
  destruct (Z.compare_spec (2 * r) den); try destruct (Z.even q);
    rewrite ?E1, ?E2; lia.
Qed.

Lemma field_precio_accepts (p : Float.float) :
  Float.ltb Float.zero p = true -> Float.leb p Producto.diez_mil = true ->
  Producto.field_precio p = Ok (Float.round2 p).
Proof.
  intros Hgt Hle. unfold Producto.field_precio, confloat.
  rewrite Hgt, Hle. simpl. unfold Producto.validar_precio.
  now rewrite (ltb_not_leb _ _ Hgt), (leb_not_ltb _ _ Hle).
Qed.



Lemma init_precio_rejected (U : Data) id_ n p cs s f :
  Producto.field_precio p = Err OutOfRange ->
  exists errs, Producto.init U id_ n p cs s f = inl errs /\ In OutOfRange errs.
Proof.
  intros H. unfold Producto.init. rewrite H.
  destruct (Producto.field_nombre U n), (Producto.field_categorias U cs),
    (Producto.field_stock s); eexists; split; try reflexivity;
    simpl; auto; apply in_or_app; right; simpl; auto.
Qed.



(** ** The list of categories *)

Section Categorias.
Variable U : Data.

Lemma nodup_length_le (l : list str) :
  (length (nodup str_eq_dec l) <= length l)%nat.
Proof.
  induction l as [|x l IH]; simpl; auto.
  destruct (in_dec str_eq_dec x l); simpl; lia.
Qed.

Lemma nodup_length_lt (l : list str) :
  ~ NoDup l -> (length (nodup str_eq_dec l) < length l)%nat.
Proof.
  induction l as [|x l IH]; intros H.
  - destruct H. constructor.
  - simpl. destruct (in_dec str_eq_dec x l) as [Hin|Hin]; simpl.
    + pose proof (nodup_length_le l). lia.
    + assert (~ NoDup l) by (intros Hl; apply H; now constructor).
      specialize (IH H0). lia.
Qed.

Lemma pairwise_distinct_NoDup (v : list Categoria.t) :
  (forall i j a b, i <> j ->
     nth_error v i = Some a -> nth_error v j = Some b ->
     ~ eq_ignoring_case U (Categoria.nombre a) (Categoria.nombre b)) ->
  NoDup (nombres U v).
Proof.
  intros H. apply NoDup_nth_error. intros i j Hi E.
  destruct (Nat.eq_dec i j) as [|Hij]; auto. exfalso.
  unfold nombres in *. rewrite length_map in Hi.
  rewrite !nth_error_map in E.
  destruct (nth_error v i) as [a|] eqn:Ea;
    [|apply nth_error_None in Ea; lia].
  destruct (nth_error v j) as [b|] eqn:Eb; [|discriminate].
  simpl in E. injection E as E. exact (H i j a b Hij Ea Eb E).
Qed.

Lemma equal_pair_not_NoDup (v : list Categoria.t) i j a b :
  i <> j -> nth_error v i = Some a -> nth_error v j = Some b ->
  eq_ignoring_case U (Categoria.nombre a) (Categoria.nombre b) ->
  ~ NoDup (nombres U v).
Proof.
  intros Hij Ea Eb E Hnd.
  apply Hij. rewrite NoDup_nth_error in Hnd. apply Hnd.
  - unfold nombres. rewrite length_map. apply nth_error_Some. congruence.
  - unfold nombres. rewrite !nth_error_map, Ea, Eb. simpl. now f_equal.
Qed.

Lemma validar_categorias_accepts (v : list Categoria.t) :
  (1 <= length v <= 10)%nat -> NoDup (nombres U v) ->
  Producto.validar_categorias U v = Ok v.
Proof.
  intros [H1 H10] Hnd. unfold Producto.validar_categorias.
  destruct v as [|c r]; [simpl in H1; lia|].
  destruct (10 <? length (c :: r))%nat eqn:E;
    [apply Nat.ltb_lt in E; lia|].
  fold (nombres U (c :: r)). rewrite (nodup_fixed_point str_eq_dec Hnd).
  now rewrite Nat.eqb_refl.
Qed.

Lemma validar_categorias_duplicate (v : list Categoria.t) :
  (length v <= 10)%nat -> ~ NoDup (nombres U v) ->
  Producto.validar_categorias U v = Err DuplicateCategory.
Proof.
  intros H10 Hnd. unfold Producto.validar_categorias.
  destruct v as [|c r]; [destruct Hnd; constructor|].
  destruct (10 <? length (c :: r))%nat eqn:E;
    [apply Nat.ltb_lt in E; lia|].
  fold (nombres U (c :: r)).
  pose proof (nodup_length_lt _ Hnd) as Hlt.
  destruct (Nat.eqb_spec (length (nombres U (c :: r)))
              (length (nodup str_eq_dec (nombres U (c :: r))))); [lia|].
  reflexivity.
Qed.

Lemma conlist_accepts {A} (v : list A) :
  (1 <= length v <= 10)%nat -> conlist 1 10 v = Ok v.
Proof.
  intros [H1 H10]. unfold conlist.
  destruct (Nat.ltb_spec (length v) 1); [lia|].
  destruct (Nat.ltb_spec 10 (length v)); [lia|]. reflexivity.
Qed.

Lemma conlist_rejects {A} (v : list A) :
  (length v = 0 \/ 10 < length v)%nat ->
  exists e, conlist 1 10 v = Err e.
Proof.
  intros H. unfold conlist.
  destruct (Nat.ltb_spec (length v) 1); [eauto|].
  destruct (Nat.ltb_spec 10 (length v)); [eauto|]. lia.
Qed.

Lemma items_length (v : list Categoria.raw) cs :
  ProductoCreate.items U v = inr cs -> length cs = length v.
Proof.
  revert cs. induction v as [|d r IH]; simpl; intros cs H.
  - now injection H as <-.
  - destruct (Categoria.init U d), (ProductoCreate.items U r);
      try discriminate.
    injection H as <-. simpl. f_equal. now apply IH.
Qed.

Lemma ProductoCreate_categorias_length body pc :
  ProductoCreate.init U body = inr pc ->
  (1 <= length (ProductoCreate.categorias pc) <= 10)%nat.
Proof.
  unfold ProductoCreate.init, ProductoCreate.field_categorias.
  destruct (constr 1 100 _), (confloat _ _ _); try discriminate;
    destruct (conlist 1 10 (ProductoCreate.raw_categorias body)) eqn:Ec;
    try destruct (ProductoCreate.items U a1) eqn:Ei;
    try (destruct (conint 0 10000 _); discriminate).
  destruct (conint 0 10000 _); try discriminate.
  intros H. injection H as <-. simpl.
  rewrite (items_length _ _ Ei).
  unfold conlist in Ec.
  destruct (Nat.ltb_spec (length (ProductoCreate.raw_categorias body)) 1);
    [discriminate|].
  destruct (Nat.ltb_spec 10 (length (ProductoCreate.raw_categorias body)));
    [discriminate|].
  injection Ec as <-. lia.
Qed.
End Categorias.

Lemma init_categorias_rejected (U : Data) id_ n p cs s f e :
  Producto.field_categorias U cs = Err e ->
  exists errs, Producto.init U id_ n p cs s f = inl errs /\ In e errs.
Proof.
  intros H. unfold Producto.init. rewrite H.
  destruct (Producto.field_nombre U n), (Producto.field_precio p),
    (Producto.field_stock s); eexists; split; try reflexivity;
    simpl; rewrite ?in_app_iff; simpl; tauto.
Qed.

(** ** Names *)

Section Nombres.
Variable U : Data.

(** The name field with the limit [n]: 100 for a product, 50 for a
    category. *)
Lemma nombre_TooLong n (v : str) :
  constr 1 n v >>= Producto.validar_nombre_producto U = Err TooLong
  <-> (n < length v)%nat.
Proof.
  unfold constr, Producto.validar_nombre_producto.
  destruct (Nat.ltb_spec (length v) 1) as [H1|H1]; simpl.
  - split; [discriminate|]. intros. destruct v; simpl in *; [|lia].
    destruct n; simpl in *; lia.
  - destruct (Nat.ltb_spec n (length v)) as [Hn|Hn]; simpl.
    + tauto.
    + destruct (strip U v); split; try discriminate; lia.
Qed.

Lemma nombre_EmptyField n (v : str) :
  constr 1 n v >>= Producto.validar_nombre_producto U = Err EmptyField
  <-> (length v <= n)%nat /\ strip U v = [].
Proof.
  unfold constr, Producto.validar_nombre_producto.
  destruct (Nat.ltb_spec (length v) 1) as [H1|H1]; simpl.
  - destruct v; simpl in *; [|lia]. split; auto. split; [lia|reflexivity].
  - destruct (Nat.ltb_spec n (length v)) as [Hn|Hn]; simpl.
    + split; [discriminate|]. lia.
    + destruct (strip U v); split; try discriminate; auto.
      intros [_ H]. discriminate.
Qed.

Lemma nombre_Ok n (v : str) :
  (length v <= n)%nat -> strip U v <> [] ->
  constr 1 n v >>= Producto.validar_nombre_producto U
  = Ok (title U (strip U v)).
Proof.
  intros Hn Hs. unfold constr, Producto.validar_nombre_producto.
  destruct (Nat.ltb_spec (length v) 1) as [H1|H1]; simpl.
  - destruct v; simpl in *; [|lia]. now destruct Hs.
  - destruct (Nat.ltb_spec n (length v)); [lia|]. simpl.
    destruct (strip U v); [now destruct Hs|reflexivity].
Qed.
End Nombres.

(** C4, as the code has it.  The name of a product fails with [TooLong]
    exactly when the name as given, before trimming, has more than 100
    characters; it fails with [EmptyField] exactly when the name has at most
    100 characters and nothing is left of it after trimming; otherwise the
    result is the trimmed name in title case.  The name of a category
    behaves the same with the limit 50. *)
Theorem nombre_validation (U : Data) (v : str) :
  ((Producto.field_nombre U v = Err TooLong <-> (100 < length v)%nat) /\
   (Producto.field_nombre U v = Err EmptyField
    <-> (length v <= 100)%nat /\ strip U v = []) /\
   ((length v <= 100)%nat -> strip U v <> [] ->
    Producto.field_nombre U v = Ok (title U (strip U v)))) /\
  ((Categoria.field_nombre U v = Err TooLong <-> (50 < length v)%nat) /\
   (Categoria.field_nombre U v = Err EmptyField
    <-> (length v <= 50)%nat /\ strip U v = []) /\
   ((length v <= 50)%nat -> strip U v <> [] ->
    Categoria.field_nombre U v = Ok (title U (strip U v)))).
Proof.
  split; (split; [apply nombre_TooLong|split;
                  [apply nombre_EmptyField|apply nombre_Ok]]).
Qed.

Lemma nombre_validation_witness :
  Producto.field_nombre cpython (lit "   manzana roja   ")
  = Ok (lit "Manzana Roja") /\
  Categoria.field_nombre cpython (lit "frutas frescas")
  = Ok (lit "Frutas Frescas").
Proof.
  split.
  - apply (proj2 (proj2 (proj1
             (nombre_validation cpython (lit "   manzana roja   "))))).
    + simpl; lia.
    + discriminate.
  - apply (proj2 (proj2 (proj2
             (nombre_validation cpython (lit "frutas frescas"))))).
    + simpl; lia.
    + discriminate.
Defined.

(** Against C4 as it is stated.  A name of 101 spaces: nothing is left of
    it after trimming, and the failure is [TooLong], not [EmptyField].  A
    space followed by 100 letters: the trimmed name has 100 characters, and
    the name fails with [TooLong]. *)
Lemma nombre_101_spaces :
  let v := repeat 32%N 101 in
  let w := 32%N :: repeat 97%N 100 in
  strip cpython v = [] /\
  Producto.field_nombre cpython v = Err TooLong /\
  ~ (Producto.field_nombre cpython v = Err EmptyField
     <-> strip cpython v = []) /\
  length (strip cpython w) = 100%nat /\
  Producto.field_nombre cpython w = Err TooLong.
Proof.
  assert (Hs : strip cpython (repeat 32%N 101) = []) by reflexivity.
  assert (Hf : Producto.field_nombre cpython (repeat 32%N 101) = Err TooLong)
    by reflexivity.
  cbv zeta. split; [exact Hs|]. split; [exact Hf|]. split.
  - intros [_ H]. rewrite Hf in H. specialize (H Hs). discriminate.
  - split; reflexivity.
Qed.

(** ** Descriptions *)

Lemma Categoria_init_descripcion (U : Data) d c :
  Categoria.init U d = inr c ->
  Categoria.descripcion c = Categoria.raw_descripcion d.
Proof.
  unfold Categoria.init, Categoria.field_descripcion.
  destruct (Categoria.field_nombre U (Categoria.raw_nombre d));
    destruct (Categoria.raw_descripcion d) as [s|];
    try destruct (200 <? length s)%nat; try discriminate;
    intros H; injection H as <-; reflexivity.
Qed.

Lemma items_descripcion (U : Data) v cs :
  ProductoCreate.items U v = inr cs ->
  map Categoria.descripcion cs = map Categoria.raw_descripcion v.
Proof.
  revert cs. induction v as [|d r IH]; simpl; intros cs H.
  - now injection H as <-.
  - destruct (Categoria.init U d) eqn:Ed, (ProductoCreate.items U r);
      try discriminate.
    injection H as <-. simpl.
    now rewrite (Categoria_init_descripcion U d _ Ed), (IH _ eq_refl).
Qed.

Lemma field_categorias_Ok (U : Data) v c :
  Producto.field_categorias U v = Ok c -> c = v.
Proof.
  unfold Producto.field_categorias, conlist, Producto.validar_categorias.
  destruct (length v <? 1)%nat; [discriminate|].
  destruct (10 <? length v)%nat eqn:E; [discriminate|]. simpl.
  destruct v; [discriminate|]. rewrite E.
  destruct (negb _); [discriminate|]. now intros [= <-].
Qed.

(** What [Producto(...)] returns when it returns. *)
Lemma init_inr (U : Data) id_ n p cs s f prod :
  Producto.init U id_ n p cs s f = inr prod ->
  exists n' p' s',
    Producto.field_nombre U n = Ok n' /\
    Producto.field_precio p = Ok p' /\
    Producto.field_categorias U cs = Ok cs /\
    Producto.field_stock s = Ok s' /\
    prod = {| Producto.id := id_; Producto.nombre := n';
              Producto.precio := p'; Producto.categorias := cs;
              Producto.stock := s'; Producto.fecha_creacion := f |}.
Proof.
  unfold Producto.init.
  destruct (Producto.field_nombre U n) as [n'|] eqn:En;
    destruct (Producto.field_precio p) as [p'|] eqn:Ep;
    destruct (Producto.field_categorias U cs) as [c'|] eqn:Ec;
    destruct (Producto.field_stock s) as [s'|] eqn:Es; try discriminate.
  intros [= <-]. pose proof (field_categorias_Ok U cs c' Ec) as ->.
  exists n', p', s'. repeat split; auto.
Qed.

(** Against C5 as it is stated.  A description with spaces around it is
    kept with its spaces. *)
Lemma descripcion_not_trimmed :
  Categoria.init cpython cat_huerta
  = inr {| Categoria.nombre := lit "Verduras Frescas";
           Categoria.descripcion :=
             Some (lit "   productos de la huerta   ") |} /\
  strip cpython (lit "   productos de la huerta   ")
  = lit "productos de la huerta" /\
  ~ (forall c, Categoria.init cpython cat_huerta = inr c ->
       Categoria.descripcion c
       = option_map (strip cpython) (Categoria.raw_descripcion cat_huerta)).
Proof.
  split; [reflexivity|]. split; [reflexivity|].
  intros H. specialize (H _ eq_refl). discriminate.
Qed.

(** C5, as the code has it.  An accepted category holds the description it
    was given, unchanged: a description that is present is kept character
    for character, with any surrounding white space, and an absent one stays
    absent.  The same holds for the categories of an accepted request body
    and of the product that a create stores. *)
Theorem descripcion_unchanged (U : Data) :
  (forall d c,
     Categoria.init U d = inr c ->
     Categoria.descripcion c = Categoria.raw_descripcion d) /\
  (forall body pc,
     ProductoCreate.init U body = inr pc ->
     map Categoria.descripcion (ProductoCreate.categorias pc)
     = map Categoria.raw_descripcion (ProductoCreate.raw_categorias body)) /\
  (forall db producto_id ahora pc prod db',
     crear_producto U db producto_id ahora pc = (inr prod, db') ->
     Producto.categorias prod = ProductoCreate.categorias pc).
Proof.
  split; [apply Categoria_init_descripcion|]. split.
  - intros body pc. unfold ProductoCreate.init, ProductoCreate.field_categorias.
    destruct (constr 1 100 _), (confloat _ _ _); try discriminate;
      destruct (conlist 1 10 (ProductoCreate.raw_categorias body)) eqn:Ec;
      try destruct (ProductoCreate.items U a1) eqn:Ei;
      try (destruct (conint 0 10000 _); discriminate).
    destruct (conint 0 10000 _); try discriminate.
    intros H. injection H as <-. simpl.
    unfold conlist in Ec.
    destruct (length (ProductoCreate.raw_categorias body) <? 1)%nat;
      [discriminate|].
    destruct (10 <? length (ProductoCreate.raw_categorias body))%nat;
      [discriminate|].
    injection Ec as <-. exact (items_descripcion U _ _ Ei).
  - intros db producto_id ahora pc prod db'. unfold crear_producto.
    destruct (Producto.init U _ _ _ _ _ _) as [errs|prod'] eqn:E;
      [discriminate|].
    intros [= <- <-].
    destruct (init_inr U _ _ _ _ _ _ _ E)
      as (n' & p' & s' & _ & _ & _ & _ & ->).
    reflexivity.
Qed.

Lemma descripcion_unchanged_witness :
  Categoria.descripcion
    {| Categoria.nombre := lit "Verduras Frescas";
       Categoria.descripcion := Some (lit "   productos de la huerta   ") |}
  = Categoria.raw_descripcion cat_huerta.
Proof.
  apply (proj1 (descripcion_unchanged cpython) cat_huerta). reflexivity.
Defined.

(** ** The handlers *)

Lemma field_nombre_Ok (U : Data) v n :
  Producto.field_nombre U v = Ok n -> n = title U (strip U v).
Proof.
  unfold Producto.field_nombre, constr, Producto.validar_nombre_producto.
  destruct (length v <? 1)%nat; [discriminate|].
  destruct (100 <? length v)%nat; [discriminate|]. simpl.
  destruct (strip U v); [discriminate|]. now intros [= <-].
Qed.

Lemma field_precio_Ok v p :
  Producto.field_precio v = Ok p -> p = Float.round2 v.
Proof.
  unfold Producto.field_precio, confloat, Producto.validar_precio.
  destruct (negb (Float.ltb Float.zero v)); [discriminate|].
  destruct (negb (Float.leb v Producto.diez_mil)); [discriminate|]. simpl.
  destruct (Float.leb v Float.zero); [discriminate|].
  destruct (Float.ltb Producto.diez_mil v); [discriminate|].
  now intros [= <-].
Qed.

Lemma field_stock_Ok v s :
  Producto.field_stock v = Ok s -> s = v /\ (0 <= v <= 10000)%Z.
Proof.
  unfold Producto.field_stock, conint, Producto.validar_stock.
  destruct (Z.leb_spec 0 v); [|discriminate].
  destruct (Z.leb_spec v 10000); [|discriminate]. simpl.
  destruct (v <? 0)%Z; [discriminate|].
  destruct (10000 <? v)%Z; [discriminate|].
  intros [= <-]. split; [reflexivity|lia].
Qed.

Lemma keyed_set (db : dict) k p :
  keyed db -> Producto.id p = Some k -> keyed (dict_set db k p).
Proof.
  intros Hdb Hp k' p' H. destruct (str_eq_dec k k') as [<-|Hk].
  - rewrite dict_get_set_same in H. now injection H as <-.
  - rewrite (dict_get_set_other db k k' p Hk) in H. now apply Hdb.
Qed.

Lemma keyed_del (db : dict) k : keyed db -> keyed (dict_del db k).
Proof.
  intros Hdb k' p' H. destruct (str_eq_dec k k') as [<-|Hk].
  - rewrite dict_get_del_same in H. discriminate.
  - rewrite (dict_get_del_other db k k' Hk) in H. now apply Hdb.
Qed.

Lemma keyed_step (U : Data) db r : keyed db -> keyed (step U db r).
Proof.
  intros Hdb. destruct r as [i a p|i p|i]; simpl.
  - unfold crear_producto.
    destruct (Producto.init U _ _ _ _ _ _) as [errs|prod] eqn:E; simpl; auto.
    apply keyed_set; auto.
    destruct (init_inr U _ _ _ _ _ _ _ E)
      as (n' & p' & s' & _ & _ & _ & _ & ->).
    reflexivity.
  - unfold actualizar_producto.
    destruct (dict_get db i) as [actual|]; simpl; auto.
    destruct (Producto.init U _ _ _ _ _ _) as [errs|prod] eqn:E; simpl; auto.
    apply keyed_set; auto.
    destruct (init_inr U _ _ _ _ _ _ _ E)
      as (n' & p' & s' & _ & _ & _ & _ & ->).
    reflexivity.
  - unfold eliminar_producto.
    destruct (dict_get db i); simpl; auto. now apply keyed_del.
Qed.

Lemma keyed_run (U : Data) rs db : keyed db -> keyed (run U db rs).
Proof.
  revert db. induction rs as [|r rs IH]; simpl; intros db Hdb; auto.
  apply IH. now apply keyed_step.
Qed.

Lemma keyed_empty : keyed [].
Proof. intros k p H. discriminate. Qed.

(** C6. An update of an identifier that is not in the table fails with
    [NotFound] and leaves the table as it was.  An update of an identifier
    that is in the table, with fields that [Producto] accepts, stores and
    returns a product that carries the same identifier and the creation
    time of the product it replaces, and whose name, price, categories and
    stock are the validated new ones; the other entries of the table are
    not touched. *)
Theorem actualizar_producto_replaces
    (U : Data) (db : dict) (producto_id : str) (producto : ProductoCreate.t) :
  (dict_get db producto_id = None ->
   actualizar_producto U db producto_id producto = (inl NotFound, db)) /\
  (forall actual nuevo,
     dict_get db producto_id = Some actual ->
     Producto.init U (Some producto_id)
       (ProductoCreate.nombre producto) (ProductoCreate.precio producto)
       (ProductoCreate.categorias producto) (ProductoCreate.stock producto)
       (Producto.fecha_creacion actual) = inr nuevo ->
     let db' := dict_set db producto_id nuevo in
     actualizar_producto U db producto_id producto = (inr nuevo, db') /\
     obtener_producto db' producto_id = inr nuevo /\
     Producto.id nuevo = Some producto_id /\
     (forall rs, db = run U [] rs -> Producto.id nuevo = Producto.id actual) /\
     Producto.fecha_creacion nuevo = Producto.fecha_creacion actual /\
     Producto.nombre nuevo
     = title U (strip U (ProductoCreate.nombre producto)) /\
     Producto.precio nuevo = Float.round2 (ProductoCreate.precio producto) /\
     Producto.categorias nuevo = ProductoCreate.categorias producto /\
     Producto.stock nuevo = ProductoCreate.stock producto /\
     (forall k, k <> producto_id -> dict_get db' k = dict_get db k)).
Proof.
  split.
  - intros H. unfold actualizar_producto. now rewrite H.
  - intros actual nuevo Hget Hinit db'.
    destruct (init_inr U _ _ _ _ _ _ _ Hinit)
      as (n' & p' & s' & Hn & Hp & _ & Hs & Hnuevo).
    split; [unfold actualizar_producto; now rewrite Hget, Hinit|].
    split; [unfold obtener_producto, db'; now rewrite dict_get_set_same|].
    subst nuevo. simpl.
    split; [reflexivity|]. split.
    { intros rs ->. symmetry.
      exact (keyed_run U rs [] keyed_empty _ _ Hget). }
    split; [reflexivity|].
    split; [now apply field_nombre_Ok|].
    split; [now apply field_precio_Ok|].
    split; [reflexivity|].
    split; [now apply field_stock_Ok|].
    intros k Hk. unfold db'. apply dict_get_set_other. congruence.
Qed.

(** C10. When the identifier is in the table and [Producto] rejects the new
    fields, the update raises those failures and writes nothing: the table
    is the one it was, and a get of the identifier still returns the product
    that was stored. *)
Theorem actualizar_producto_invalid_unchanged
    (U : Data) (db : dict) (producto_id : str) (producto : ProductoCreate.t)
    (actual : Producto.t) (errs : list ValidationError) :
  dict_get db producto_id = Some actual ->
  Producto.init U (Some producto_id)
    (ProductoCreate.nombre producto) (ProductoCreate.precio producto)
    (ProductoCreate.categorias producto) (ProductoCreate.stock producto)
    (Producto.fecha_creacion actual) = inl errs ->
  exists db',
    actualizar_producto U db producto_id producto = (inl (Invalid errs), db') /\
    db' = db /\
    obtener_producto db' producto_id = inr actual.
Proof.
  intros Hget Hinit. exists db.
  unfold actualizar_producto, obtener_producto. now rewrite Hget, Hinit.
Qed.

Lemma db_1_created :
  crear_producto cpython [] (lit "id-1") 1000%Z producto_valido
  = (inr manzana_roja, db_1).
Proof. reflexivity. Qed.

Lemma actualizar_producto_replaces_witness :
  actualizar_producto cpython db_1 (lit "id-9") producto_verde
  = (inl NotFound, db_1) /\
  actualizar_producto cpython db_1 (lit "id-1") producto_verde
  = (inr manzana_verde, [(lit "id-1", manzana_verde)]) /\
  Producto.fecha_creacion manzana_verde = Producto.fecha_creacion manzana_roja.
Proof.
  split.
  - apply (proj1 (actualizar_producto_replaces cpython db_1 (lit "id-9")
                    producto_verde)).
    reflexivity.
  - destruct (proj2 (actualizar_producto_replaces cpython db_1 (lit "id-1")
                       producto_verde) manzana_roja manzana_verde
                eq_refl eq_refl)
      as (H1 & _ & _ & _ & H2 & _).
    split; [exact H1|exact H2].
Defined.

Lemma actualizar_producto_invalid_unchanged_witness :
  exists db',
    actualizar_producto cpython db_1 (lit "id-1") producto_sin_nombre
    = (inl (Invalid [EmptyField]), db') /\
    db' = db_1 /\
    obtener_producto db' (lit "id-1") = inr manzana_roja.
Proof.
  apply (actualizar_producto_invalid_unchanged cpython db_1 (lit "id-1")
           producto_sin_nombre manzana_roja [EmptyField]); reflexivity.
Defined.

(** ** Deleting *)

Lemma step_keeps_absent (U : Data) db k r :
  not_creating k r -> dict_get db k = None -> dict_get (step U db r) k = None.
Proof.
  intros Hr Hk. destruct r as [i a p|i p|i]; simpl in *.
  - unfold crear_producto.
    destruct (Producto.init U _ _ _ _ _ _); simpl; auto.
    now rewrite dict_get_set_other.
  - unfold actualizar_producto.
    destruct (dict_get db i) as [actual|] eqn:Ei; simpl; auto.
    destruct (Producto.init U _ _ _ _ _ _); simpl; auto.
    rewrite dict_get_set_other; auto. congruence.
  - unfold eliminar_producto.
    destruct (dict_get db i) eqn:Ei; simpl; auto.
    destruct (str_eq_dec i k) as [->|Hik].
    + apply dict_get_del_same.
    + now rewrite dict_get_del_other.
Qed.

Lemma run_keeps_absent (U : Data) rs db k :
  Forall (not_creating k) rs -> dict_get db k = None ->
  dict_get (run U db rs) k = None.
Proof.
  revert db. induction rs as [|r rs IH]; simpl; intros db Hrs Hk; auto.
  inversion Hrs; subst. apply IH; auto. now apply step_keeps_absent.
Qed.

(** C7. A delete of an identifier that is not in the table fails with
    [NotFound].  A delete of an identifier that is in the table removes the
    entry: from then on, through any requests that do not create that
    identifier again, a get, an update and a delete of it fail with
    [NotFound]. *)
Theorem eliminar_producto_then_NotFound
    (U : Data) (db : dict) (producto_id : str) :
  (dict_get db producto_id = None ->
   eliminar_producto db producto_id = (inl NotFound, db)) /\
  (forall p, dict_get db producto_id = Some p ->
     eliminar_producto db producto_id = (inr tt, dict_del db producto_id) /\
     forall rs, Forall (not_creating producto_id) rs ->
       let db' := run U (dict_del db producto_id) rs in
       obtener_producto db' producto_id = inl NotFound /\
       (forall producto,
          actualizar_producto U db' producto_id producto
          = (inl NotFound, db')) /\
       eliminar_producto db' producto_id = (inl NotFound, db')).
Proof.
  split.
  - intros H. unfold eliminar_producto. now rewrite H.
  - intros p Hp. split; [unfold eliminar_producto; now rewrite Hp|].
    intros rs Hrs db'.
    assert (H : dict_get db' producto_id = None).
    { apply run_keeps_absent; auto. apply dict_get_del_same. }
    unfold obtener_producto, actualizar_producto, eliminar_producto.
    rewrite H. auto.
Qed.

Lemma eliminar_producto_then_NotFound_witness :
  eliminar_producto db_1 (lit "id-1") = (inr tt, []) /\
  obtener_producto
    (run cpython [] [Crear (lit "id-2") 2000%Z producto_verde;
                     Eliminar (lit "id-2")]) (lit "id-1")
  = inl NotFound.
Proof.
  destruct (proj2 (eliminar_producto_then_NotFound cpython db_1 (lit "id-1"))
              manzana_roja eq_refl) as (H1 & H2).
  split; [exact H1|].
  apply (H2 [Crear (lit "id-2") 2000%Z producto_verde; Eliminar (lit "id-2")]).
  repeat constructor. discriminate.
Defined.

(** ** Filtering by category *)

Section PorCategoria.
Variable U : Data.

Lemma alguna_categoria_existsb categorias q :
  alguna_categoria U categorias q
  = existsb (fun categoria =>
               str_eqb (lower U (Categoria.nombre categoria)) (lower U q))
            categorias.
Proof.
  induction categorias as [|c r IH]; simpl; auto.
  destruct (str_eqb _ _); simpl; auto.
Qed.

Lemma recorrer_filter productos q acc :
  recorrer U productos q acc = acc ++ filter (matches U q) productos.
Proof.
  revert acc. induction productos as [|p r IH]; simpl; intros acc.
  - now rewrite app_nil_r.
  - rewrite IH, alguna_categoria_existsb. unfold matches at 2.
    destruct (existsb _ _); simpl; auto. now rewrite <- app_assoc.
Qed.

Lemma matches_spec q p :
  matches U q p = true <->
  exists c, In c (Producto.categorias p) /\
            eq_ignoring_case U (Categoria.nombre c) q.
Proof.
  unfold matches, eq_ignoring_case. rewrite existsb_exists.
  split; intros (c & Hc & E); exists c; split; auto;
    now apply str_eqb_eq.
Qed.
End PorCategoria.


(** A product in "Frutas" is found under "FRUTAS" and not under "Fru". *)
Example por_categoria_Frutas :
  obtener_productos_por_categoria cpython db_1 (lit "FRUTAS") = [manzana_roja]
  /\ obtener_productos_por_categoria cpython db_1 (lit "Fru") = [].
Proof. split; reflexivity. Qed.

(** ** Normalizing twice *)

Section SimpleCasing.
Variable U : Data.

Lemma fixed_by_eq f x : fixed_by f x = true -> f x = [x].
Proof.
  unfold fixed_by. destruct (f x) as [|y [|? ?]]; try discriminate.
  intros H. apply N.eqb_eq in H. now subst.
Qed.

Lemma same_class_eq x c :
  same_class U x c = true ->
  is_cased U x = is_cased U c /\ is_space U x = is_space U c.
Proof.
  unfold same_class. intros H. apply andb_prop in H as [H1 H2].
  split; now apply Bool.eqb_prop.
Qed.

Lemma lower_stable_eq c l :
  lower_stable U c l = true ->
  (forall before after, lower_ucs4 U before l after = [l]) /\
  is_cased U l = is_cased U c /\ is_space U l = is_space U c.
Proof.
  unfold lower_stable. intros H.
  apply andb_prop in H as [H H3]. apply andb_prop in H as [H1 H2].
  split; [|now apply same_class_eq].
  intros before after. unfold lower_ucs4.
  destruct (l =? 931)%N; [discriminate|]. now apply fixed_by_eq.
Qed.

(** One step of [do_title] on a simply cased character gives one
    character, which a second pass gives back. *)
Lemma step_simple (b : bool) before c after :
  simple_casing U c = true ->
  exists o,
    (if b then lower_ucs4 U before c after else to_title_full U c) = [o] /\
    (forall before' after',
       (if b then lower_ucs4 U before' o after' else to_title_full U o)
       = [o]) /\
    is_cased U o = is_cased U c /\ is_space U o = is_space U c.
Proof.
  unfold simple_casing. intros H. apply andb_prop in H as [Ht Hl].
  destruct b.
  - unfold lower_ucs4 at 1. destruct (c =? 931)%N.
    + apply andb_prop in Hl as [H2 H3]. unfold handle_capital_sigma.
      match goal with |- context [if ?x then 962%N else 963%N] =>
        destruct x end.
      * exists 962%N. split; [reflexivity|]. now apply lower_stable_eq.
      * exists 963%N. split; [reflexivity|]. now apply lower_stable_eq.
    + destruct (to_lower_full U c) as [|l [|? ?]]; try discriminate.
      exists l. split; [reflexivity|]. now apply lower_stable_eq.
  - destruct (to_title_full U c) as [|t [|? ?]]; try discriminate.
    apply andb_prop in Ht as [H1 H2].
    exists t. split; [reflexivity|].
    split; [intros; now apply fixed_by_eq|]. now apply same_class_eq.
Qed.

Lemma do_title_twice (w : str) : forall b before before',
  forallb (simple_casing U) w = true ->
  do_title U b before' (do_title U b before w) = do_title U b before w.
Proof.
  induction w as [|c r IH]; intros b before before' H; [reflexivity|].
  cbn [forallb] in H. apply andb_prop in H as [Hc Hr].
  destruct (step_simple b before c r Hc) as (o & E1 & E2 & Hcased & _).
  specialize (E2 before' (do_title U (is_cased U c) (c :: before) r)).
  destruct b; cbv iota in E1, E2; cbn [do_title]; rewrite E1;
    cbn [app do_title]; rewrite E2, Hcased; cbn [app]; f_equal;
    now apply IH.
Qed.

Lemma do_title_spaces (w : str) : forall b before,
  forallb (simple_casing U) w = true ->
  map (is_space U) (do_title U b before w) = map (is_space U) w.
Proof.
  induction w as [|c r IH]; intros b before H; [reflexivity|].
  cbn [forallb] in H. apply andb_prop in H as [Hc Hr].
  destruct (step_simple b before c r Hc) as (o & E1 & _ & _ & Hspace).
  destruct b; cbv iota in E1; cbn [do_title]; rewrite E1;
    cbn [app map]; rewrite Hspace; f_equal; now apply IH.
Qed.

Lemma lstrip_fix (s : str) : hd_ok U s = true -> lstrip U s = s.
Proof.
  destruct s as [|c r]; simpl; auto. unfold hd_ok. simpl.
  now destruct (is_space U c).
Qed.

Lemma hd_ok_lstrip (s : str) : hd_ok U (lstrip U s) = true.
Proof.
  induction s as [|c r IH]; simpl; auto.
  destruct (is_space U c) eqn:E; auto. unfold hd_ok. simpl. now rewrite E.
Qed.

Lemma lstrip_suffix (s : str) : exists sp, s = sp ++ lstrip U s.
Proof.
  induction s as [|c r [sp IH]]; simpl.
  - now exists [].
  - destruct (is_space U c).
    + exists (c :: sp). simpl. now f_equal.
    + now exists [].
Qed.

Lemma rstrip_prefix (s : str) : exists sp, s = rstrip U s ++ sp.
Proof.
  unfold rstrip. destruct (lstrip_suffix (rev s)) as [sp E].
  exists (rev sp). rewrite <- rev_app_distr, <- E. now rewrite rev_involutive.
Qed.

Lemma hd_ok_rstrip (s : str) : hd_ok U s = true -> hd_ok U (rstrip U s) = true.
Proof.
  intros H. destruct (rstrip_prefix s) as [sp E].
  destruct (rstrip U s) as [|c r]; auto.
  rewrite E in H. exact H.
Qed.

Lemma strip_fix (s : str) :
  hd_ok U s = true -> hd_ok U (rev s) = true -> strip U s = s.
Proof.
  intros H1 H2. unfold strip, rstrip.
  now rewrite (lstrip_fix s H1), (lstrip_fix (rev s) H2), rev_involutive.
Qed.

Lemma strip_trimmed (v : str) :
  hd_ok U (strip U v) = true /\ hd_ok U (rev (strip U v)) = true.
Proof.
  unfold strip. split.
  - apply hd_ok_rstrip, hd_ok_lstrip.
  - unfold rstrip. rewrite rev_involutive. apply hd_ok_lstrip.
Qed.

Lemma hd_ok_same_spaces (s s' : str) :
  map (is_space U) s' = map (is_space U) s ->
  hd_ok U s' = hd_ok U s /\ hd_ok U (rev s') = hd_ok U (rev s).
Proof.
  intros E. unfold hd_ok. rewrite !map_rev, E. auto.
Qed.

Lemma strip_parts (v : str) : exists l r, v = l ++ strip U v ++ r.
Proof.
  unfold strip. destruct (lstrip_suffix v) as [l El].
  destruct (rstrip_prefix (lstrip U v)) as [r Er].
  exists l, r. now rewrite <- Er.
Qed.

Lemma strip_simple (v : str) :
  forallb (simple_casing U) v = true ->
  forallb (simple_casing U) (strip U v) = true.
Proof.
  destruct (strip_parts v) as (l & r & E). intros H. rewrite E in H.
  rewrite !forallb_app in H.
  apply andb_prop in H as [_ H]. now apply andb_prop in H as [H _].
Qed.

Lemma strip_length (v : str) : (length (strip U v) <= length v)%nat.
Proof.
  destruct (strip_parts v) as (l & r & E). rewrite E at 2.
  rewrite !length_app. lia.
Qed.

Lemma title_strip_twice (v : str) :
  forallb (simple_casing U) v = true ->
  strip U (title U (strip U v)) = title U (strip U v) /\
  title U (title U (strip U v)) = title U (strip U v) /\
  length (title U (strip U v)) = length (strip U v).
Proof.
  intros H. pose proof (strip_simple v H) as Hw.
  pose proof (do_title_spaces (strip U v) false [] Hw) as Hsp.
  fold (title U (strip U v)) in Hsp.
  destruct (hd_ok_same_spaces _ _ Hsp) as [E1 E2].
  destruct (strip_trimmed v) as [T1 T2].
  split; [apply strip_fix; congruence|]. split.
  - unfold title. now apply do_title_twice.
  - rewrite <- (length_map (is_space U)), Hsp. apply length_map.
Qed.

(** The name field with the limit [n], applied to its own result. *)
Lemma nombre_twice n (v r : str) :
  forallb (simple_casing U) v = true ->
  constr 1 n v >>= Producto.validar_nombre_producto U = Ok r ->
  constr 1 n r >>= Producto.validar_nombre_producto U = Ok r.
Proof.
  intros H E.
  destruct (title_strip_twice v H) as (Hs & Ht & Hlen).
  assert (Hv : (length v <= n)%nat /\ strip U v <> []
               /\ r = title U (strip U v)).
  { revert E. unfold constr, Producto.validar_nombre_producto.
    destruct (length v <? 1)%nat; [discriminate|].
    destruct (Nat.ltb_spec n (length v)); [discriminate|]. simpl.
    destruct (strip U v); [discriminate|].
    intros [= <-]. repeat split; auto. discriminate. }
  destruct Hv as (Hn & Hne & ->).
  pose proof (strip_length v) as Hle.
  rewrite nombre_Ok.
  - now rewrite Hs, Ht.
  - lia.
  - rewrite Hs. intros E0. apply Hne.
    apply length_zero_iff_nil. rewrite <- Hlen, E0. reflexivity.
Qed.
End SimpleCasing.

(** The characters below 128. *)
Lemma below_128 (P : N -> bool) :
  forallb P (map N.of_nat (seq 0 128)) = true ->
  forall c, (c < 128)%N -> P c = true.
Proof.
  intros H c Hc. rewrite forallb_forall in H. apply H.
  rewrite <- (N2Nat.id c). apply in_map, in_seq. lia.
Qed.

Lemma ascii_simple_casing (v : str) :
  is_ascii v = true -> forallb (simple_casing cpython) v = true.
Proof.
  unfold is_ascii. rewrite !forallb_forall. intros H c Hc.
  apply below_128; [vm_compute; reflexivity|].
  apply N.ltb_lt. now apply H.
Qed.

(** C9, as the code has it.  On a name whose characters are all simply
    cased, normalizing is idempotent: trimming and title-casing an already
    normalized name gives it back, and so do the name fields of a product
    and of a category applied to their own result.  Every name written in
    ASCII is such a name. *)
Theorem normalization_idempotent_simple_casing :
  (forall (U : Data) (v : str),
     forallb (simple_casing U) v = true ->
     title U (strip U (title U (strip U v))) = title U (strip U v) /\
     (forall n, Producto.field_nombre U v = Ok n ->
                Producto.field_nombre U n = Ok n) /\
     (forall n, Categoria.field_nombre U v = Ok n ->
                Categoria.field_nombre U n = Ok n)) /\
  (forall v, is_ascii v = true -> forallb (simple_casing cpython) v = true).
Proof.
  split; [|exact ascii_simple_casing].
  intros U v H. destruct (title_strip_twice U v H) as (Hs & Ht & _).
  split; [now rewrite Hs, Ht|].
  split; intros n; apply nombre_twice; assumption.
Qed.

Lemma normalization_idempotent_simple_casing_witness :
  Producto.field_nombre cpython (lit "   zanahoria naranja   ")
  = Ok (lit "Zanahoria Naranja") /\
  Producto.field_nombre cpython (lit "Zanahoria Naranja")
  = Ok (lit "Zanahoria Naranja").
Proof.
  destruct normalization_idempotent_simple_casing as [H1 H2].
  assert (E : Producto.field_nombre cpython (lit "   zanahoria naranja   ")
              = Ok (lit "Zanahoria Naranja")) by reflexivity.
  split; [exact E|].
  apply (proj1 (proj2 (H1 cpython (lit "   zanahoria naranja   ")
                         (H2 (lit "   zanahoria naranja   ") eq_refl))) _ E).
Defined.

(** Against C9 as it is stated.  The name U+01F0 "a": its normal form is
    U+004A U+030C "a", and the normal form of that is U+004A U+030C "A". *)
Lemma normalization_not_idempotent :
  let v := [496; 97]%N in
  let n := title cpython (strip cpython v) in
  n = [74; 780; 97]%N /\
  title cpython (strip cpython n) = [74; 780; 65]%N /\
  title cpython (strip cpython n) <> n /\
  Producto.field_nombre cpython v = Ok n /\
  Producto.field_nombre cpython n <> Ok n /\
  Categoria.field_nombre cpython v = Ok n /\
  Categoria.field_nombre cpython n <> Ok n.
Proof.
  cbv zeta. repeat split; try reflexivity; discriminate.
Qed.

(** ** Repeated category names in a create *)

Lemma ascii_to_lower_space (c : N) :
  is_space cpython (ascii_to_lower c) = is_space cpython c.
Proof.
  unfold ascii_to_lower. destruct (ascii_upper c) eqn:E; [|reflexivity].
  unfold ascii_upper in E. apply andb_prop in E as [E1 E2].
  apply N.leb_le in E1, E2. simpl. unfold ascii_space.
  repeat match goal with
         | |- context [(?a <=? ?b)%N] => destruct (N.leb_spec a b)
         | |- context [(?a =? ?b)%N] => destruct (N.eqb_spec a b)
         end; simpl; try reflexivity; lia.
Qed.

(** What the methods do to one character of the ASCII range. *)
Lemma ascii_rows (c : N) :
  (c < 128)%N ->
  (c =? 931)%N = false /\
  to_lower_full cpython c = [ascii_to_lower c] /\
  (ascii_to_lower c < 128)%N /\
  ascii_to_lower (ascii_to_lower c) = ascii_to_lower c /\
  exists t, to_title_full cpython c = [t] /\ (t < 128)%N /\
            ascii_to_lower t = ascii_to_lower c.
Proof.
  intros Hc.
  set (P := fun c : N =>
    negb (c =? 931)%N
    && str_eqb (to_lower_full cpython c) [ascii_to_lower c]
    && (ascii_to_lower c <? 128)%N
    && (ascii_to_lower (ascii_to_lower c) =? ascii_to_lower c)%N
    && match to_title_full cpython c with
       | [t] => (t <? 128)%N && (ascii_to_lower t =? ascii_to_lower c)%N
       | _ => false
       end).
  assert (H : P c = true) by (apply below_128; [vm_compute; reflexivity|exact Hc]).
  unfold P in H.
  apply andb_prop in H as [H H5]. apply andb_prop in H as [H H4].
  apply andb_prop in H as [H H3]. apply andb_prop in H as [H1 H2].
  apply negb_true_iff in H1. apply str_eqb_eq in H2.
  apply N.ltb_lt in H3. apply N.eqb_eq in H4.
  repeat split; auto.
  destruct (to_title_full cpython c) as [|t [|? ?]]; try discriminate.
  apply andb_prop in H5 as [H5 H6].
  apply N.ltb_lt in H5. apply N.eqb_eq in H6. eauto.
Qed.

Lemma do_lower_ascii (s : str) : forall before,
  is_ascii s = true -> do_lower cpython before s = map ascii_to_lower s.
Proof.
  induction s as [|c r IH]; intros before H; [reflexivity|].
  cbn [is_ascii forallb] in H. apply andb_prop in H as [Hc Hr].
  apply N.ltb_lt in Hc. destruct (ascii_rows c Hc) as (E1 & E2 & _).
  cbn [do_lower map]. unfold lower_ucs4. rewrite E1, E2. cbn [app].
  f_equal. now apply IH.
Qed.

Lemma do_title_ascii (s : str) : forall b before,
  is_ascii s = true ->
  is_ascii (do_title cpython b before s) = true /\
  map ascii_to_lower (do_title cpython b before s) = map ascii_to_lower s.
Proof.
  induction s as [|c r IH]; intros b before H; [split; reflexivity|].
  cbn [is_ascii forallb] in H. apply andb_prop in H as [Hc Hr].
  apply N.ltb_lt in Hc.
  destruct (ascii_rows c Hc) as (E1 & E2 & H3 & H4 & t & E5 & H5 & H6).
  destruct (IH (is_cased cpython c) (c :: before) Hr) as [IH1 IH2].
  cbn [do_title]. unfold lower_ucs4. rewrite E1, E2, E5.
  destruct b; cbn [app map is_ascii forallb];
    fold (is_ascii (do_title cpython (is_cased cpython c) (c :: before) r));
    rewrite IH1, IH2.
  - rewrite H4. split; [|reflexivity].
    apply andb_true_intro. split; [now apply N.ltb_lt|reflexivity].
  - rewrite H6. split; [|reflexivity].
    apply andb_true_intro. split; [now apply N.ltb_lt|reflexivity].
Qed.

Lemma lstrip_map_lower (s : str) :
  lstrip cpython (map ascii_to_lower s)
  = map ascii_to_lower (lstrip cpython s).
Proof.
  induction s as [|c r IH]; [reflexivity|].
  cbn [map lstrip]. rewrite ascii_to_lower_space.
  destruct (is_space cpython c); [exact IH|reflexivity].
Qed.

Lemma strip_map_lower (s : str) :
  strip cpython (map ascii_to_lower s)
  = map ascii_to_lower (strip cpython s).
Proof.
  unfold strip, rstrip.
  now rewrite lstrip_map_lower, <- map_rev, lstrip_map_lower, map_rev.
Qed.

Lemma strip_ascii (s : str) :
  is_ascii s = true -> is_ascii (strip cpython s) = true.
Proof.
  destruct (strip_parts cpython s) as (l & r & E). intros H.
  rewrite E in H. unfold is_ascii in *. rewrite !forallb_app in H.
  apply andb_prop in H as [_ H]. now apply andb_prop in H as [H _].
Qed.

(** On a name written in ASCII, the lower case of the normalized name is
    the trimmed lower case of the name as given. *)
Lemma lower_normalized_ascii (v : str) :
  is_ascii v = true ->
  lower cpython (title cpython (strip cpython v))
  = strip cpython (lower cpython v).
Proof.
  intros H. pose proof (strip_ascii v H) as Hs.
  destruct (do_title_ascii (strip cpython v) false [] Hs) as [H1 H2].
  unfold lower, title.
  rewrite (do_lower_ascii _ [] H1), H2, (do_lower_ascii v [] H).
  symmetry. apply strip_map_lower.
Qed.

Lemma Categoria_init_nombre (U : Data) d c :
  Categoria.init U d = inr c ->
  Categoria.nombre c = title U (strip U (Categoria.raw_nombre d)).
Proof.
  unfold Categoria.init.
  destruct (Categoria.field_nombre U (Categoria.raw_nombre d)) as [n|] eqn:En;
    destruct (Categoria.field_descripcion (Categoria.raw_descripcion d));
    try discriminate.
  intros [= <-]. simpl. revert En.
  unfold Categoria.field_nombre, constr, Categoria.validar_nombre_categoria.
  destruct (length (Categoria.raw_nombre d) <? 1)%nat; [discriminate|].
  destruct (50 <? length (Categoria.raw_nombre d))%nat; [discriminate|]. simpl.
  destruct (strip U (Categoria.raw_nombre d)); [discriminate|].
  now intros [= <-].
Qed.

Lemma items_nth_error (U : Data) v cs i d :
  ProductoCreate.items U v = inr cs -> nth_error v i = Some d ->
  exists c, nth_error cs i = Some c /\ Categoria.init U d = inr c.
Proof.
  revert cs i. induction v as [|d0 r IH]; intros cs i H Hd.
  - destruct i; discriminate.
  - simpl in H.
    destruct (Categoria.init U d0) as [e|c0] eqn:E0;
      destruct (ProductoCreate.items U r) as [es|cs'] eqn:Er;
      try discriminate.
    injection H as <-. destruct i as [|i]; simpl in *.
    + injection Hd as <-. eauto.
    + now apply (IH cs').
Qed.

Lemma ProductoCreate_init_items (U : Data) body pc :
  ProductoCreate.init U body = inr pc ->
  ProductoCreate.items U (ProductoCreate.raw_categorias body)
  = inr (ProductoCreate.categorias pc).
Proof.
  unfold ProductoCreate.init, ProductoCreate.field_categorias.
  destruct (constr 1 100 _), (confloat _ _ _); try discriminate;
    destruct (conlist 1 10 (ProductoCreate.raw_categorias body)) eqn:Ec;
    try destruct (ProductoCreate.items U a1) eqn:Ei;
    try (destruct (conint 0 10000 _); discriminate).
  destruct (conint 0 10000 _); try discriminate.
  intros H. injection H as <-. simpl.
  unfold conlist in Ec.
  destruct (length (ProductoCreate.raw_categorias body) <? 1)%nat;
    [discriminate|].
  destruct (10 <? length (ProductoCreate.raw_categorias body))%nat;
    [discriminate|].
  injection Ec as <-. exact Ei.
Qed.

(** The [ProductoCreate] of an accepted body holds, at each place, the
    category that [Categoria] built from the one given at that place. *)
Lemma ProductoCreate_categoria_at (U : Data) body pc i d :
  ProductoCreate.init U body = inr pc ->
  nth_error (ProductoCreate.raw_categorias body) i = Some d ->
  exists c,
    nth_error (ProductoCreate.categorias pc) i = Some c /\
    Categoria.nombre c = title U (strip U (Categoria.raw_nombre d)).
Proof.
  intros H Hd. pose proof (ProductoCreate_init_items U body pc H) as Hi.
  destruct (items_nth_error U _ _ i d Hi Hd) as (c & Hc & Hinit).
  exists c. split; auto. now apply Categoria_init_nombre.
Qed.

Lemma crear_producto_duplicate (U : Data) db producto_id ahora body pc
    i j a b :
  ProductoCreate.init U body = inr pc ->
  i <> j ->
  nth_error (ProductoCreate.categorias pc) i = Some a ->
  nth_error (ProductoCreate.categorias pc) j = Some b ->
  eq_ignoring_case U (Categoria.nombre a) (Categoria.nombre b) ->
  exists errs,
    crear_producto U db producto_id ahora pc = (inl (Invalid errs), db) /\
    In DuplicateCategory errs.
Proof.
  intros Hpc Hij Ha Hb Eab.
  pose proof (ProductoCreate_categorias_length U body pc Hpc) as Hlen.
  pose proof (equal_pair_not_NoDup U _ i j a b Hij Ha Hb Eab) as Hnd.
  assert (Hf : Producto.field_categorias U (ProductoCreate.categorias pc)
               = Err DuplicateCategory).
  { unfold Producto.field_categorias. rewrite (conlist_accepts _ Hlen).
    simpl. apply validar_categorias_duplicate; [lia|assumption]. }
  unfold crear_producto.
  destruct (init_categorias_rejected U (Some producto_id)
              (ProductoCreate.nombre pc) (ProductoCreate.precio pc)
              (ProductoCreate.categorias pc) (ProductoCreate.stock pc)
              (Some ahora) _ Hf) as (errs & E & Hin).
  rewrite E. eauto.
Qed.

(** C3, as the code has it.  A list of categories of length 0 or of length
    above 10 is rejected: by the field of [Producto] (with [EmptyField] and
    [TooMany]), by [Producto] whatever the other fields are, and by
    [ProductoCreate].  A list of 1 to 10 categories whose names are pairwise
    different ignoring case passes [validar_categorias].  A create whose
    [ProductoCreate] holds two categories whose names, as [Categoria]
    normalized them, are equal ignoring case is rejected, the table is left
    as it was, and [DuplicateCategory] is among the failures.  That is so
    whenever the two names as given in the body are written in ASCII and are
    equal ignoring case. *)
Theorem categorias_length_and_duplicates :
  (forall U : Data,
     (forall v : list Categoria.t,
        (length v = 0%nat -> Producto.field_categorias U v = Err EmptyField) /\
        ((10 < length v)%nat -> Producto.field_categorias U v = Err TooMany) /\
        (length v = 0%nat \/ (10 < length v)%nat ->
         forall id_ n p s f, exists errs,
           Producto.init U id_ n p v s f = inl errs)) /\
     (forall v : list Categoria.raw,
        length v = 0%nat \/ (10 < length v)%nat ->
        forall n p s, exists errs,
          ProductoCreate.init U
            {| ProductoCreate.raw_nombre := n; ProductoCreate.raw_precio := p;
               ProductoCreate.raw_categorias := v;
               ProductoCreate.raw_stock := s |} = inl errs) /\
     (forall v : list Categoria.t,
        (1 <= length v <= 10)%nat ->
        (forall i j a b, i <> j ->
           nth_error v i = Some a -> nth_error v j = Some b ->
           ~ eq_ignoring_case U (Categoria.nombre a) (Categoria.nombre b)) ->
        Producto.validar_categorias U v = Ok v /\
        Producto.field_categorias U v = Ok v) /\
     (forall db producto_id ahora body pc i j a b,
        ProductoCreate.init U body = inr pc ->
        i <> j ->
        nth_error (ProductoCreate.categorias pc) i = Some a ->
        nth_error (ProductoCreate.categorias pc) j = Some b ->
        eq_ignoring_case U (Categoria.nombre a) (Categoria.nombre b) ->
        exists errs,
          crear_producto U db producto_id ahora pc = (inl (Invalid errs), db) /\
          In DuplicateCategory errs)) /\
  (forall db producto_id ahora body pc i j a b,
     ProductoCreate.init cpython body = inr pc ->
     i <> j ->
     nth_error (ProductoCreate.raw_categorias body) i = Some a ->
     nth_error (ProductoCreate.raw_categorias body) j = Some b ->
     is_ascii (Categoria.raw_nombre a) = true ->
     is_ascii (Categoria.raw_nombre b) = true ->
     eq_ignoring_case cpython (Categoria.raw_nombre a)
       (Categoria.raw_nombre b) ->
     exists errs,
       crear_producto cpython db producto_id ahora pc
       = (inl (Invalid errs), db) /\
       In DuplicateCategory errs).
Proof.
  split.
  - intros U.
    assert (Hfield : forall v : list Categoria.t,
       (length v = 0%nat -> Producto.field_categorias U v = Err EmptyField) /\
       ((10 < length v)%nat -> Producto.field_categorias U v = Err TooMany)).
    { intros v. unfold Producto.field_categorias, conlist. split; intros H.
      - now rewrite H.
      - destruct (Nat.ltb_spec (length v) 1); [lia|].
        destruct (Nat.ltb_spec 10 (length v)); [reflexivity|lia]. }
    split; [|split; [|split]].
    + intros v. destruct (Hfield v) as [H0 H10]. repeat split; auto.
      intros [H|H] id_ n p s f.
      * destruct (init_categorias_rejected U id_ n p v s f _ (H0 H))
          as (errs & E & _). eauto.
      * destruct (init_categorias_rejected U id_ n p v s f _ (H10 H))
          as (errs & E & _). eauto.
    + intros v H n p s.
      destruct (conlist_rejects v H) as [e He].
      unfold ProductoCreate.init, ProductoCreate.field_categorias. simpl.
      rewrite He.
      destruct (constr 1 100 n), (confloat _ _ p), (conint 0 10000 s); eauto.
    + intros v Hlen Hpair.
      pose proof (pairwise_distinct_NoDup U v Hpair) as Hnd.
      pose proof (validar_categorias_accepts U v Hlen Hnd) as Hv.
      split; auto.
      unfold Producto.field_categorias. now rewrite (conlist_accepts v Hlen).
    + intros db producto_id ahora body pc i j a b Hpc Hij Ha Hb Eab.
      pose proof (ProductoCreate_categorias_length U body pc Hpc) as Hlen.
      pose proof (equal_pair_not_NoDup U _ i j a b Hij Ha Hb Eab) as Hnd.
      assert (Hf : Producto.field_categorias U (ProductoCreate.categorias pc)
                   = Err DuplicateCategory).
      { unfold Producto.field_categorias. rewrite (conlist_accepts _ Hlen).
        simpl. apply validar_categorias_duplicate; [lia|assumption]. }
      unfold crear_producto.
      destruct (init_categorias_rejected U (Some producto_id)
                  (ProductoCreate.nombre pc) (ProductoCreate.precio pc)
                  (ProductoCreate.categorias pc) (ProductoCreate.stock pc)
                  (Some ahora) _ Hf) as (errs & E & Hin).
      rewrite E. eauto.
  - intros db producto_id ahora body pc i j a b Hpc Hij Ha Hb Aa Ab Eab.
    destruct (ProductoCreate_categoria_at cpython body pc i a Hpc Ha)
      as (ca & Hca & Na).
    destruct (ProductoCreate_categoria_at cpython body pc j b Hpc Hb)
      as (cb & Hcb & Nb).
    apply (crear_producto_duplicate cpython db producto_id ahora body pc
             i j ca cb Hpc Hij Hca Hcb).
    unfold eq_ignoring_case in *.
    rewrite Na, Nb, (lower_normalized_ascii _ Aa),
      (lower_normalized_ascii _ Ab).
    now rewrite Eab.
Qed.

Lemma categorias_length_and_duplicates_witness :
  Producto.validar_categorias cpython [frutas (lit "test1")]
  = Ok [frutas (lit "test1")] /\
  (exists errs,
     crear_producto cpython [] (lit "id-1") 0%Z producto_duplicadas
     = (inl (Invalid errs), []) /\
     In DuplicateCategory errs) /\
  (exists errs,
     crear_producto cpython db_1 (lit "id-2") 0%Z producto_duplicadas
     = (inl (Invalid errs), db_1) /\
     In DuplicateCategory errs).
Proof.
  destruct categorias_length_and_duplicates as [H H5].
  destruct (H cpython) as (_ & _ & H3 & H4).
  split; [|split].
  - apply (H3 [frutas (lit "test1")]).
    + simpl; lia.
    + intros [|[|i]] [|[|j]] a b Hij Ha Hb; try congruence;
        simpl in Ha, Hb; try discriminate;
        destruct i; try discriminate; destruct j; discriminate.
  - apply (H4 [] (lit "id-1") 0%Z body_duplicadas producto_duplicadas
              0%nat 1%nat (frutas (lit "test1")) (frutas (lit "test2")));
      try reflexivity.
    discriminate.
  - apply (H5 db_1 (lit "id-2") 0%Z body_duplicadas producto_duplicadas
              0%nat 1%nat cat_frutas cat_frutas_mayus);
      try reflexivity.
    discriminate.
Defined.

(** Against C3 as it is stated.  The names U+1E9E and U+00DF are equal
    ignoring case as given; [Categoria] normalizes them to U+1E9E and to
    "Ss", which are not; the body passes [ProductoCreate] and the create
    stores the product. *)
Lemma duplicate_sharp_s_accepted :
  eq_ignoring_case cpython_sharp_s [7838%N] [223%N] /\
  ProductoCreate.init cpython_sharp_s body_sharp_s = inr producto_sharp_s /\
  (exists prod,
     crear_producto cpython_sharp_s [] (lit "id-1") 1000%Z producto_sharp_s
     = (inr prod, [(lit "id-1", prod)])) /\
  ~ (exists errs,
       crear_producto cpython_sharp_s [] (lit "id-1") 1000%Z producto_sharp_s
       = (inl (Invalid errs), []) /\ In DuplicateCategory errs).
Proof.
  split; [reflexivity|]. split; [reflexivity|]. split.
  - eexists. reflexivity.
  - intros (errs & E & _). discriminate.
Qed.

(** ** Ranges of the stored price and stock *)

Lemma run_stored (U : Data) (P : Producto.t -> Prop) :
  (forall id_ n p cs s f prod,
     Producto.init U id_ n p cs s f = inr prod -> P prod) ->
  forall rs db,
    (forall k p, dict_get db k = Some p -> P p) ->
    forall k p, dict_get (run U db rs) k = Some p -> P p.
Proof.
  intros HP. induction rs as [|r rs IH]; simpl; intros db Hdb; auto.
  apply IH. intros k p.
  assert (Hset : forall i prod, P prod ->
            dict_get (dict_set db i prod) k = Some p -> P p).
  { intros i prod Hprod. destruct (str_eq_dec i k) as [->|Hik].
    - rewrite dict_get_set_same. now intros [= <-].
    - rewrite dict_get_set_other; auto. apply Hdb. }
  destruct r as [i a pc|i pc|i]; simpl.
  - unfold crear_producto.
    destruct (Producto.init U _ _ _ _ _ _) eqn:E; simpl; [apply Hdb|].
    apply Hset. exact (HP _ _ _ _ _ _ _ E).
  - unfold actualizar_producto.
    destruct (dict_get db i); simpl; [|apply Hdb].
    destruct (Producto.init U _ _ _ _ _ _) eqn:E; simpl; [apply Hdb|].
    apply Hset. exact (HP _ _ _ _ _ _ _ E).
  - unfold eliminar_producto. destruct (dict_get db i); simpl; [|apply Hdb].
    destruct (str_eq_dec i k) as [->|Hik].
    + now rewrite dict_get_del_same.
    + rewrite dict_get_del_other; auto. apply Hdb.
Qed.

(** The stock of every stored product is between 0 and 10000. *)
Lemma stored_stock_in_range (U : Data) rs k p :
  dict_get (run U [] rs) k = Some p -> (0 <= Producto.stock p <= 10000)%Z.
Proof.
  apply (run_stored U (fun p => (0 <= Producto.stock p <= 10000)%Z)).
  - intros id_ n p0 cs s f prod E.
    destruct (init_inr U _ _ _ _ _ _ _ E)
      as (n' & p' & s' & _ & _ & _ & Hs & ->).
    simpl. apply field_stock_Ok in Hs as [-> Hs]. exact Hs.
  - intros k0 p0 H. discriminate.
Qed.

(** C2 at the price 0.001.  The price is a binary64 value above 0 and below
    10000; the request body passes [ProductoCreate]; the create succeeds,
    and the product it stores has the price 0.0, which is not above 0. *)
Theorem stored_price_zero :
  valid_binary Float.prec Float.emax precio_0_001 = true /\
  Float.ltb Float.zero precio_0_001 = true /\
  Float.leb precio_0_001 Producto.diez_mil = true /\
  ProductoCreate.init cpython body_milesimo = inr producto_milesimo /\
  exists prod,
    crear_producto cpython [] (lit "id-1") 1000%Z producto_milesimo
    = (inr prod, [(lit "id-1", prod)]) /\
    obtener_producto [(lit "id-1", prod)] (lit "id-1") = inr prod /\
    Producto.precio prod = Float.zero /\
    Float.ltb Float.zero (Producto.precio prod) = false.
Proof.
  repeat split; try reflexivity.
  eexists. repeat split; reflexivity.
Qed.

(** * Further properties *)

(** ** Invariants of the table *)

Lemma run_invariant (U : Data) (Q : request -> Prop) (I : dict -> Prop) :
  (forall db r, Q r -> I db -> I (step U db r)) ->
  forall rs db, Forall Q rs -> I db -> I (run U db rs).
Proof.
  intros Hstep. induction rs as [|r rs IH]; simpl; intros db Hrs Hdb; auto.
  inversion Hrs; subst. apply IH; auto.
Qed.

Lemma all_entries_set (P : str -> Producto.t -> Prop) db i prod :
  all_entries P db -> P i prod -> all_entries P (dict_set db i prod).
Proof.
  intros Hdb Hp k p. destruct (str_eq_dec i k) as [->|Hik].
  - rewrite dict_get_set_same. now intros [= <-].
  - rewrite dict_get_set_other; auto.
Qed.

Lemma all_entries_del (P : str -> Producto.t -> Prop) db i :
  all_entries P db -> all_entries P (dict_del db i).
Proof.
  intros Hdb k p. destruct (str_eq_dec i k) as [->|Hik].
  - now rewrite dict_get_del_same.
  - rewrite dict_get_del_other; auto.
Qed.

(** A property of the entries is kept by a request when the product that a
    create or an update builds has it; for an update, the product being
    replaced may be assumed to have it. *)
Lemma step_entries (U : Data) (P : str -> Producto.t -> Prop) db r :
  all_entries P db ->
  match r with
  | Crear i a pc =>
      forall prod,
        Producto.init U (Some i) (ProductoCreate.nombre pc)
          (ProductoCreate.precio pc) (ProductoCreate.categorias pc)
          (ProductoCreate.stock pc) (Some a) = inr prod -> P i prod
  | Actualizar i pc =>
      forall actual prod,
        dict_get db i = Some actual -> P i actual ->
        Producto.init U (Some i) (ProductoCreate.nombre pc)
          (ProductoCreate.precio pc) (ProductoCreate.categorias pc)
          (ProductoCreate.stock pc) (Producto.fecha_creacion actual)
        = inr prod -> P i prod
  | Eliminar _ => True
  end ->
  all_entries P (step U db r).
Proof.
  intros Hdb Hr. destruct r as [i a pc|i pc|i]; simpl.
  - unfold crear_producto.
    destruct (Producto.init U _ _ _ _ _ _) eqn:E; simpl; auto.
    apply all_entries_set; auto.
  - unfold actualizar_producto.
    destruct (dict_get db i) as [actual|] eqn:Ei; simpl; auto.
    destruct (Producto.init U _ _ _ _ _ _) eqn:E; simpl; auto.
    apply all_entries_set; auto. exact (Hr actual _ eq_refl (Hdb _ _ Ei) E).
  - unfold eliminar_producto. destruct (dict_get db i); simpl; auto.
    now apply all_entries_del.
Qed.

Lemma all_entries_empty (P : str -> Producto.t -> Prop) : all_entries P [].
Proof. intros k p H. discriminate. Qed.

Lemma nodup_length_NoDup (l : list str) :
  length (nodup str_eq_dec l) = length l -> NoDup l.
Proof.
  induction l as [|x l IH]; simpl; [constructor|].
  destruct (in_dec str_eq_dec x l) as [Hin|Hin]; simpl; intros H.
  - pose proof (nodup_length_le l). lia.
  - constructor; auto.
Qed.

Lemma field_categorias_Ok_inv (U : Data) v c :
  Producto.field_categorias U v = Ok c ->
  c = v /\ (1 <= length v <= 10)%nat /\ NoDup (nombres U v).
Proof.
  intros H. pose proof (field_categorias_Ok U v c H) as ->.
  split; [reflexivity|]. revert H.
  unfold Producto.field_categorias, conlist, Producto.validar_categorias.
  destruct (Nat.ltb_spec (length v) 1); [discriminate|].
  destruct (Nat.ltb_spec 10 (length v)) as [|H10]; [discriminate|]. simpl.
  destruct v as [|c0 r]; [discriminate|].
  destruct (Nat.ltb_spec 10 (length (c0 :: r))); [discriminate|].
  fold (nombres U (c0 :: r)).
  destruct (Nat.eqb_spec (length (nombres U (c0 :: r)))
              (length (nodup str_eq_dec (nombres U (c0 :: r)))));
    [|discriminate].
  intros _. split; [lia|]. now apply nodup_length_NoDup.
Qed.

(** X1. In every table that the handlers build from the empty one, a
    product is filed under the identifier it carries, has a creation time,
    has between 1 and 10 categories whose names are pairwise different
    ignoring case, and has a stock between 0 and 10000. *)
Theorem stored_products_well_formed (U : Data) (rs : list request) k p :
  dict_get (run U [] rs) k = Some p ->
  Producto.id p = Some k /\
  Producto.fecha_creacion p <> None /\
  (1 <= length (Producto.categorias p) <= 10)%nat /\
  (forall i j a b, i <> j ->
     nth_error (Producto.categorias p) i = Some a ->
     nth_error (Producto.categorias p) j = Some b ->
     ~ eq_ignoring_case U (Categoria.nombre a) (Categoria.nombre b)) /\
  (0 <= Producto.stock p <= 10000)%Z.
Proof.
  set (P := fun (k : str) (p : Producto.t) =>
    Producto.id p = Some k /\ Producto.fecha_creacion p <> None /\
    (1 <= length (Producto.categorias p) <= 10)%nat /\
    NoDup (nombres U (Producto.categorias p)) /\
    (0 <= Producto.stock p <= 10000)%Z).
  assert (Hinit : forall i n pr cs s f prod,
            f <> None ->
            Producto.init U (Some i) n pr cs s f = inr prod -> P i prod).
  { intros i n pr cs s f prod Hf E.
    destruct (init_inr U _ _ _ _ _ _ _ E)
      as (n' & p' & s' & _ & _ & Hc & Hs & ->).
    apply field_categorias_Ok_inv in Hc as (_ & Hlen & Hnd).
    apply field_stock_Ok in Hs as [-> Hs].
    repeat split; simpl; auto; lia. }
  assert (Hall : all_entries P (run U [] rs)).
  { apply (run_invariant U (fun _ => True) (all_entries P)).
    - intros db r _ Hdb. apply step_entries; auto.
      destruct r as [i a pc|i pc|i]; auto.
      + intros prod. apply Hinit. discriminate.
      + intros actual prod _ (_ & Hf & _). now apply Hinit.
    - apply Forall_forall. auto.
    - apply all_entries_empty. }
  intros H. destruct (Hall k p H) as (H1 & H2 & H3 & H4 & H5).
  repeat split; auto; try lia.
  intros i j a b Hij Ha Hb E.
  exact (equal_pair_not_NoDup U _ i j a b Hij Ha Hb E H4).
Qed.

Lemma stored_products_well_formed_witness :
  Producto.id manzana_roja = Some (lit "id-1") /\
  (0 <= Producto.stock manzana_roja <= 10000)%Z.
Proof.
  destruct (stored_products_well_formed cpython
              [Crear (lit "id-1") 1000%Z producto_valido]
              (lit "id-1") manzana_roja eq_refl) as (H1 & _ & _ & _ & H5).
  split; [exact H1|exact H5].
Defined.

(** ** The stored price *)

Lemma digits2_pos_bound (m : positive) :
  (Zpos m < 2 ^ Zpos (digits2_pos m))%Z.
Proof.
  induction m as [m IH|m IH|]; simpl digits2_pos;
    rewrite ?Pos2Z.inj_succ, ?Z.pow_succ_r by lia; lia.
Qed.

Lemma valid_mantissa_bound s m e :
  valid_binary Float.prec Float.emax (S754_finite s m e) = true ->
  (Zpos m < 2 ^ 53)%Z.
Proof.
  unfold valid_binary, bounded, canonical_mantissa, fexp, Float.prec.
  intros H. apply andb_prop in H as [H _]. apply Z.eqb_eq in H.
  pose proof (digits2_pos_bound m) as Hm.
  assert (Hd : (Zpos (digits2_pos m) <= 53)%Z) by lia.
  eapply Z.lt_le_trans; [exact Hm|]. apply Z.pow_le_mono_r; lia.
Qed.

Lemma diez_mil_eq :
  Producto.diez_mil = S754_finite false 5497558138880000 (-39).
Proof. reflexivity. Qed.

Lemma compare_cont_le (m n : positive) :
  match Pos.compare_cont Eq m n with Gt => false | _ => true end = true ->
  (Zpos m <= Zpos n)%Z.
Proof.
  intros H Hc. change (Pos.compare_cont Eq m n = Gt) in Hc.
  rewrite Hc in H. discriminate.
Qed.

(** A binary64 price that passes the range check is positive and finite,
    and a hundred times its value is at most 1000000. *)
Lemma price_in_range_bound (p : Float.float) :
  valid_binary Float.prec Float.emax p = true ->
  Float.ltb Float.zero p = true ->
  Float.leb p Producto.diez_mil = true ->
  exists m d,
    p = S754_finite false m (Zneg d) /\
    (100 * Zpos m <= 1000000 * 2 ^ Zpos d)%Z.
Proof.
  intros Hv Hgt Hle. rewrite diez_mil_eq in Hle.
  destruct p as [s|s| |s m e]; try discriminate.
  - destruct s; discriminate.
  - destruct s; [discriminate|].
    pose proof (valid_mantissa_bound _ _ _ Hv) as Hm.
    unfold Float.leb, SFleb, SFcompare in Hle.
    destruct (Z.compare_spec e (-39)) as [He|He|He]; try discriminate.
    + subst e. exists m, 39%positive. split; [reflexivity|].
      pose proof (compare_cont_le _ _ Hle) as Hc.
      assert (E : (2 ^ 39 = 549755813888)%Z) by (vm_compute; reflexivity).
      rewrite E. lia.
    + destruct e as [|e|d]; [lia|lia|]. exists m, d. split; [reflexivity|].
      assert (H40 : (2 ^ 40 <= 2 ^ Zpos d)%Z) by (apply Z.pow_le_mono_r; lia).
      assert (E : (2 ^ 53 = 8192 * 2 ^ 40)%Z) by (vm_compute; reflexivity).
      rewrite E in Hm. lia.
Qed.

Lemma nearest_hundredths_bound (m d : positive) :
  (100 * Zpos m <= 1000000 * 2 ^ Zpos d)%Z ->
  (0 <= Float.nearest_hundredths m (Zneg d) <= 1000000)%Z.
Proof.
  intros Hb. unfold Float.nearest_hundredths.
  set (n := (100 * Zpos m)%Z) in *. set (den := (2 ^ Zpos d)%Z) in *.
  assert (Hden : (0 < den)%Z) by (apply Z.pow_pos_nonneg; lia).
  pose proof (Z.div_mod n den ltac:(lia)) as Hn.
  pose proof (Z.mod_pos_bound n den Hden) as Hr.
  assert (Hq0 : (0 <= n / den)%Z) by (apply Z.div_pos; lia).
  assert (Hq1 : (n / den <= 1000000)%Z).
  { apply Z.div_le_upper_bound; lia. }
  set (q := (n / den)%Z) in *. set (r := (n mod den)%Z) in *.
  cbv zeta.
  assert (Hlt : (0 < r -> q < 1000000)%Z).
  { intros Hr0. apply (Z.mul_lt_mono_pos_l den); lia. }
  destruct (Z.compare_spec (2 * r) den); try destruct (Z.even q); lia.
Qed.

Lemma round2_cents (m : positive) (e : Z) :
  Float.round2 (S754_finite false m e) = cents (Float.nearest_hundredths m e).
Proof.
  unfold Float.round2, cents. now destruct (Float.nearest_hundredths m e).
Qed.

Lemma field_precio_cents (v p : Float.float) :
  valid_binary Float.prec Float.emax v = true ->
  Producto.field_precio v = Ok p ->
  exists c, (0 <= c <= 1000000)%Z /\ p = cents c.
Proof.
  intros Hv H. pose proof (field_precio_Ok v p H) as ->.
  unfold Producto.field_precio, confloat in H.
  destruct (Float.ltb Float.zero v) eqn:Hgt; [|discriminate].
  destruct (Float.leb v Producto.diez_mil) eqn:Hle; [|discriminate].
  destruct (price_in_range_bound v Hv Hgt Hle) as (m & d & -> & Hb).
  exists (Float.nearest_hundredths m (Zneg d)).
  split; [now apply nearest_hundredths_bound|apply round2_cents].
Qed.

(** X2. When the prices that the requests carry are binary64 values, the
    price of every stored product is a whole number of hundredths from 0 to
    1000000, as the nearest float: the stored price is 0.00, 0.01, ... or
    10000.00. *)
Theorem stored_price_hundredths (U : Data) (rs : list request) k p :
  Forall binary64_price rs ->
  dict_get (run U [] rs) k = Some p ->
  exists c, (0 <= c <= 1000000)%Z /\ Producto.precio p = cents c.
Proof.
  intros Hrs.
  set (P := fun (_ : str) (p : Producto.t) =>
    exists c, (0 <= c <= 1000000)%Z /\ Producto.precio p = cents c).
  assert (Hinit : forall i pc f prod,
            valid_binary Float.prec Float.emax (ProductoCreate.precio pc)
            = true ->
            Producto.init U (Some i) (ProductoCreate.nombre pc)
              (ProductoCreate.precio pc) (ProductoCreate.categorias pc)
              (ProductoCreate.stock pc) f = inr prod -> P i prod).
  { intros i pc f prod Hv E.
    destruct (init_inr U _ _ _ _ _ _ _ E)
      as (n' & p' & s' & _ & Hp & _ & _ & ->).
    exact (field_precio_cents _ _ Hv Hp). }
  assert (Hall : all_entries P (run U [] rs)).
  { apply (run_invariant U binary64_price (all_entries P)); auto.
    - intros db r Hr Hdb. apply step_entries; auto.
      destruct r as [i a pc|i pc|i]; auto.
      + intros prod. now apply Hinit.
      + intros actual prod _ _. now apply Hinit.
    - apply all_entries_empty. }
  intros H. exact (Hall k p H).
Qed.

Lemma stored_price_hundredths_witness :
  exists c, (0 <= c <= 1000000)%Z /\ Producto.precio manzana_roja = cents c.
Proof.
  apply (stored_price_hundredths cpython
           [Crear (lit "id-1") 1000%Z producto_valido] (lit "id-1")).
  - repeat constructor.
  - reflexivity.
Defined.

(** ** Sending a stored product back *)

Lemma dict_set_same (db : dict) k p :
  dict_get db k = Some p -> dict_set db k p = db.
Proof.
  induction db as [|[k' p'] r IH]; simpl; [discriminate|].
  destruct (str_eqb k' k) eqn:E.
  - now intros [= ->].
  - intros H. now rewrite IH.
Qed.

Lemma field_precio_zero : Producto.field_precio Float.zero = Err OutOfRange.
Proof. reflexivity. Qed.

(** X3. When the product names that the requests carry are made of simply
    cased characters, the name, the categories and the stock of every
    stored product pass the validation of [Producto] and come out of it
    unchanged.  If the stored price does so too, an update that sends the
    product its own fields returns the same product and leaves the table as
    it is; if the stored price is 0.0, that update is rejected with
    [OutOfRange]. *)
Theorem stored_product_revalidates (U : Data) (rs : list request) k p :
  Forall (simple_name U) rs ->
  dict_get (run U [] rs) k = Some p ->
  Producto.field_nombre U (Producto.nombre p) = Ok (Producto.nombre p) /\
  Producto.field_categorias U (Producto.categorias p)
  = Ok (Producto.categorias p) /\
  Producto.field_stock (Producto.stock p) = Ok (Producto.stock p) /\
  (Producto.field_precio (Producto.precio p) = Ok (Producto.precio p) ->
   actualizar_producto U (run U [] rs) k (fields_of p)
   = (inr p, run U [] rs)) /\
  (Producto.precio p = Float.zero ->
   exists errs,
     actualizar_producto U (run U [] rs) k (fields_of p)
     = (inl (Invalid errs), run U [] rs) /\ In OutOfRange errs).
Proof.
  intros Hrs.
  set (P := fun (k : str) (p : Producto.t) =>
    Producto.id p = Some k /\
    Producto.field_nombre U (Producto.nombre p) = Ok (Producto.nombre p) /\
    Producto.field_categorias U (Producto.categorias p)
    = Ok (Producto.categorias p) /\
    Producto.field_stock (Producto.stock p) = Ok (Producto.stock p)).
  assert (Hinit : forall i pc f prod,
            forallb (simple_casing U) (ProductoCreate.nombre pc) = true ->
            Producto.init U (Some i) (ProductoCreate.nombre pc)
              (ProductoCreate.precio pc) (ProductoCreate.categorias pc)
              (ProductoCreate.stock pc) f = inr prod -> P i prod).
  { intros i pc f prod Hsimple E.
    destruct (init_inr U _ _ _ _ _ _ _ E)
      as (n' & p' & s' & Hn & _ & Hc & Hs & ->).
    pose proof (field_stock_Ok _ _ Hs) as [-> _].
    repeat split; simpl; auto.
    exact (nombre_twice U 100 _ _ Hsimple Hn). }
  assert (Hall : all_entries P (run U [] rs)).
  { apply (run_invariant U (simple_name U) (all_entries P)); auto.
    - intros db r Hr Hdb. apply step_entries; auto.
      destruct r as [i a pc|i pc|i]; auto.
      + intros prod. now apply Hinit.
      + intros actual prod _ _. now apply Hinit.
    - apply all_entries_empty. }
  intros Hget. destruct (Hall k p Hget) as (Hid & Hn & Hc & Hs).
  repeat split; auto.
  - intros Hp. unfold actualizar_producto, Producto.init, fields_of. simpl.
    rewrite Hget, Hn, Hp, Hc, Hs.
    assert (E : {| Producto.id := Some k;
                   Producto.nombre := Producto.nombre p;
                   Producto.precio := Producto.precio p;
                   Producto.categorias := Producto.categorias p;
                   Producto.stock := Producto.stock p;
                   Producto.fecha_creacion := Producto.fecha_creacion p |}
                = p).
    { rewrite <- Hid. now destruct p. }
    rewrite E. now rewrite (dict_set_same _ _ _ Hget).
  - intros Hz. unfold actualizar_producto. rewrite Hget.
    destruct (init_precio_rejected U (Some k)
                (ProductoCreate.nombre (fields_of p))
                (ProductoCreate.precio (fields_of p))
                (ProductoCreate.categorias (fields_of p))
                (ProductoCreate.stock (fields_of p))
                (Producto.fecha_creacion p)) as (errs & E & Hin).
    { simpl. rewrite Hz. apply field_precio_zero. }
    rewrite E. eauto.
Qed.

Lemma stored_product_revalidates_witness :
  actualizar_producto cpython db_1 (lit "id-1") (fields_of manzana_roja)
  = (inr manzana_roja, db_1).
Proof.
  destruct (stored_product_revalidates cpython
              [Crear (lit "id-1") 1000%Z producto_valido]
              (lit "id-1") manzana_roja) as (_ & _ & _ & H & _).
  - repeat constructor.
  - reflexivity.
  - apply H. reflexivity.
Defined.

(** ** The request body and the models *)

Lemma items_Forall2 (U : Data) v cs :
  ProductoCreate.items U v = inr cs <->
  Forall2 (fun d c => Categoria.init U d = inr c) v cs.
Proof.
  revert cs. induction v as [|d r IH]; simpl; intros cs.
  - split.
    + intros [= <-]. constructor.
    + intros H. inversion H. reflexivity.
  - split.
    + destruct (Categoria.init U d) as [e|c] eqn:Ed;
        destruct (ProductoCreate.items U r) as [es|cs'] eqn:Er;
        try discriminate.
      intros [= <-]. constructor; auto. now apply IH.
    + intros H. inversion H as [|? c ? cs' Hd Hr]; subst.
      rewrite Hd. apply IH in Hr. now rewrite Hr.
Qed.

Lemma constr_Ok a b v r :
  constr a b v = Ok r <-> (a <= length v <= b)%nat /\ r = v.
Proof.
  unfold constr.
  destruct (Nat.ltb_spec (length v) a); [split; [discriminate|lia]|].
  destruct (Nat.ltb_spec b (length v)); [split; [discriminate|lia]|].
  split; [intros [= <-]; split; [lia|reflexivity]|intros [_ ->]; reflexivity].
Qed.

Lemma confloat_Ok a b v r :
  confloat a b v = Ok r <->
  Float.ltb a v = true /\ Float.leb v b = true /\ r = v.
Proof.
  unfold confloat.
  destruct (Float.ltb a v); simpl; [|split; [discriminate|intros [H _]; discriminate]].
  destruct (Float.leb v b); simpl;
    [|split; [discriminate|intros (_ & H & _); discriminate]].
  split; [intros [= <-]; auto|intros (_ & _ & ->); reflexivity].
Qed.

Lemma conint_Ok a b v r :
  conint a b v = Ok r <-> (a <= v <= b)%Z /\ r = v.
Proof.
  unfold conint.
  destruct (Z.leb_spec a v); simpl; [|split; [discriminate|lia]].
  destruct (Z.leb_spec v b); simpl; [|split; [discriminate|lia]].
  split; [intros [= <-]; split; [lia|reflexivity]|intros [_ ->]; reflexivity].
Qed.

Lemma conlist_Ok {A} a b (v r : list A) :
  conlist a b v = Ok r <-> (a <= length v <= b)%nat /\ r = v.
Proof.
  unfold conlist.
  destruct (Nat.ltb_spec (length v) a); [split; [discriminate|lia]|].
  destruct (Nat.ltb_spec b (length v)); [split; [discriminate|lia]|].
  split; [intros [= <-]; split; [lia|reflexivity]|intros [_ ->]; reflexivity].
Qed.

(** What [ProductoCreate] holds when it accepts a body. *)
Lemma ProductoCreate_init_inv (U : Data) body pc :
  ProductoCreate.init U body = inr pc ->
  constr 1 100 (ProductoCreate.raw_nombre body)
  = Ok (ProductoCreate.nombre pc) /\
  confloat Float.zero Producto.diez_mil (ProductoCreate.raw_precio body)
  = Ok (ProductoCreate.precio pc) /\
  conlist 1 10 (ProductoCreate.raw_categorias body)
  = Ok (ProductoCreate.raw_categorias body) /\
  ProductoCreate.items U (ProductoCreate.raw_categorias body)
  = inr (ProductoCreate.categorias pc) /\
  conint 0 10000 (ProductoCreate.raw_stock body)
  = Ok (ProductoCreate.stock pc).
Proof.
  unfold ProductoCreate.init, ProductoCreate.field_categorias.
  destruct (constr 1 100 _) as [n|] eqn:En;
    destruct (confloat _ _ _) as [p|] eqn:Ep;
    destruct (conlist 1 10 _) as [l|] eqn:El;
    try destruct (ProductoCreate.items U l) as [es|cs] eqn:Ei;
    destruct (conint 0 10000 _) as [s|] eqn:Es; try discriminate.
  intros [= <-]. simpl.
  pose proof El as El'. apply conlist_Ok in El' as [Hl ->].
  repeat split; auto.
Qed.

(** X4. [ProductoCreate] accepts a body exactly when the name as given has
    1 to 100 characters, the price is above 0 and at most 10000, the stock
    is between 0 and 10000, and there are 1 to 10 categories, each accepted
    by [Categoria].  What it then holds is the name and the price as given,
    neither trimmed nor rounded, and the categories that [Categoria]
    built.  Names that are blank and categories that repeat do not make it
    reject. *)
Theorem ProductoCreate_accepts_iff
    (U : Data) (body : ProductoCreate.raw) (pc : ProductoCreate.t) :
  ProductoCreate.init U body = inr pc <->
  (1 <= length (ProductoCreate.raw_nombre body) <= 100)%nat /\
  Float.ltb Float.zero (ProductoCreate.raw_precio body) = true /\
  Float.leb (ProductoCreate.raw_precio body) Producto.diez_mil = true /\
  (1 <= length (ProductoCreate.raw_categorias body) <= 10)%nat /\
  (0 <= ProductoCreate.raw_stock body <= 10000)%Z /\
  Forall2 (fun d c => Categoria.init U d = inr c)
    (ProductoCreate.raw_categorias body) (ProductoCreate.categorias pc) /\
  ProductoCreate.nombre pc = ProductoCreate.raw_nombre body /\
  ProductoCreate.precio pc = ProductoCreate.raw_precio body /\
  ProductoCreate.stock pc = ProductoCreate.raw_stock body.
Proof.
  split.
  - intros H.
    destruct (ProductoCreate_init_inv U body pc H)
      as (Hn & Hp & Hl & Hi & Hs).
    apply constr_Ok in Hn as [Hn ->]. apply confloat_Ok in Hp as (? & ? & ->).
    apply conlist_Ok in Hl as [Hl _]. apply conint_Ok in Hs as [Hs ->].
    apply items_Forall2 in Hi. repeat split; auto; lia.
  - intros (Hn & Hgt & Hle & Hl & Hs & Hi & En & Ep & Es).
    unfold ProductoCreate.init, ProductoCreate.field_categorias.
    rewrite (proj2 (constr_Ok 1 100 _ _) (conj Hn eq_refl)).
    rewrite (proj2 (confloat_Ok _ _ _ _) (conj Hgt (conj Hle eq_refl))).
    rewrite (proj2 (conlist_Ok 1 10 _ _) (conj Hl eq_refl)).
    rewrite (proj2 (items_Forall2 U _ _) Hi).
    rewrite (proj2 (conint_Ok 0 10000 _ _) (conj Hs eq_refl)).
    destruct pc; simpl in *. now subst.
Qed.

Lemma ProductoCreate_accepts_iff_witness :
  ProductoCreate.init cpython body_blank_repeated
  = inr {| ProductoCreate.nombre := lit "   ";
           ProductoCreate.precio := precio_25_5;
           ProductoCreate.categorias :=
             [frutas (lit "test1"); frutas (lit "test2")];
           ProductoCreate.stock := 100 |}.
Proof.
  apply (proj2 (ProductoCreate_accepts_iff cpython body_blank_repeated _)).
  repeat split; simpl; try lia.
  repeat constructor.
Defined.

(** X5. [Categoria] accepts its arguments exactly when the name as given
    has 1 to 50 characters and is not blank, and the description is absent
    or has at most 200 characters; the category then holds the trimmed name
    in title case and the description as given.  A description of more than
    200 characters is rejected with [TooLong], whatever the name. *)
Theorem Categoria_accepts_iff (U : Data) (d : Categoria.raw) :
  (forall c,
     Categoria.init U d = inr c <->
     (1 <= length (Categoria.raw_nombre d) <= 50)%nat /\
     strip U (Categoria.raw_nombre d) <> [] /\
     (forall s, Categoria.raw_descripcion d = Some s ->
                (length s <= 200)%nat) /\
     c = {| Categoria.nombre := title U (strip U (Categoria.raw_nombre d));
            Categoria.descripcion := Categoria.raw_descripcion d |}) /\
  (forall s, Categoria.raw_descripcion d = Some s -> (200 < length s)%nat ->
     exists errs, Categoria.init U d = inl errs /\ In TooLong errs).
Proof.
  split.
  - intros c. unfold Categoria.init.
    change (Categoria.field_nombre U (Categoria.raw_nombre d))
      with (constr 1 50 (Categoria.raw_nombre d)
            >>= Producto.validar_nombre_producto U).
    split.
    + intros H.
      destruct (constr 1 50 (Categoria.raw_nombre d)
                >>= Producto.validar_nombre_producto U) as [n|] eqn:En;
        destruct (Categoria.field_descripcion (Categoria.raw_descripcion d))
          as [ds|] eqn:Ed; try discriminate.
      injection H as <-.
      assert (Hlen : (1 <= length (Categoria.raw_nombre d) <= 50)%nat
                     /\ strip U (Categoria.raw_nombre d) <> []
                     /\ n = title U (strip U (Categoria.raw_nombre d))).
      { revert En. unfold constr, Producto.validar_nombre_producto.
        destruct (Nat.ltb_spec (length (Categoria.raw_nombre d)) 1);
          [discriminate|].
        destruct (Nat.ltb_spec 50 (length (Categoria.raw_nombre d)));
          [discriminate|]. simpl.
        destruct (strip U (Categoria.raw_nombre d)); [discriminate|].
        intros [= <-]. repeat split; auto; try lia. discriminate. }
      destruct Hlen as (Hl & Hs & ->).
      unfold Categoria.field_descripcion in Ed.
      destruct (Categoria.raw_descripcion d) as [s|].
      * destruct (Nat.ltb_spec 200 (length s)); [discriminate|].
        injection Ed as <-. repeat split; auto; try lia. now intros s0 [= <-].
      * injection Ed as <-. repeat split; auto; try lia. discriminate.
    + intros (Hl & Hs & Hd & ->).
      rewrite (nombre_Ok U 50 _ (proj2 Hl) Hs).
      unfold Categoria.field_descripcion.
      destruct (Categoria.raw_descripcion d) as [s|]; [|reflexivity].
      specialize (Hd s eq_refl).
      destruct (Nat.ltb_spec 200 (length s)); [lia|reflexivity].
  - intros s Hs Hlen. unfold Categoria.init, Categoria.field_descripcion.
    rewrite Hs. destruct (Nat.ltb_spec 200 (length s)); [|lia].
    destruct (Categoria.field_nombre U (Categoria.raw_nombre d));
      eexists; split; try reflexivity; simpl; auto.
Qed.

Lemma Categoria_accepts_iff_witness :
  Categoria.init cpython cat_huerta
  = inr {| Categoria.nombre :=
             title cpython (strip cpython (Categoria.raw_nombre cat_huerta));
           Categoria.descripcion := Categoria.raw_descripcion cat_huerta |}.
Proof.
  apply (proj2 (proj1 (Categoria_accepts_iff cpython cat_huerta) _)).
  repeat split; simpl; try lia; try discriminate.
  intros s [= <-]. simpl. lia.
Defined.

(** The fields of an accepted body, as [Producto] validates them. *)
Lemma after_ProductoCreate (U : Data) body pc :
  ProductoCreate.init U body = inr pc ->
  Producto.field_nombre U (ProductoCreate.nombre pc)
  = Producto.validar_nombre_producto U (ProductoCreate.nombre pc) /\
  Producto.field_precio (ProductoCreate.precio pc)
  = Ok (Float.round2 (ProductoCreate.precio pc)) /\
  Producto.field_categorias U (ProductoCreate.categorias pc)
  = Producto.validar_categorias U (ProductoCreate.categorias pc) /\
  Producto.field_stock (ProductoCreate.stock pc)
  = Ok (ProductoCreate.stock pc).
Proof.
  intros H. pose proof (ProductoCreate_categorias_length U body pc H) as Hlen.
  destruct (ProductoCreate_init_inv U body pc H) as (Hn & Hp & _ & _ & Hs).
  apply constr_Ok in Hn as [Hn En]. apply confloat_Ok in Hp as (Hgt & Hle & Ep).
  apply conint_Ok in Hs as [Hs Es]. rewrite En, Ep, Es.
  repeat split.
  - unfold Producto.field_nombre.
    now rewrite (proj2 (constr_Ok 1 100 _ _) (conj Hn eq_refl)).
  - now apply field_precio_accepts.
  - unfold Producto.field_categorias. now rewrite (conlist_accepts _ Hlen).
  - unfold Producto.field_stock.
    rewrite (proj2 (conint_Ok 0 10000 _ _) (conj Hs eq_refl)). simpl.
    unfold Producto.validar_stock.
    destruct (Z.ltb_spec (ProductoCreate.raw_stock body) 0); [lia|].
    destruct (Z.ltb_spec 10000 (ProductoCreate.raw_stock body)); [lia|].
    reflexivity.
Qed.

(** X6. For a body that [ProductoCreate] accepted, the create stores the
    product when the name is not blank and the categories do not repeat.
    When the name is blank or two categories have the same name ignoring
    case, the create raises and leaves the table as it was, and the
    failures are [EmptyField], present exactly when the name is blank, and
    [DuplicateCategory], present exactly when categories repeat: the range
    and length checks of [Producto] never fail after those of
    [ProductoCreate]. *)
Theorem crear_producto_after_ProductoCreate
    (U : Data) (db : dict) (producto_id : str) (ahora : datetime)
    (body : ProductoCreate.raw) (pc : ProductoCreate.t) :
  ProductoCreate.init U body = inr pc ->
  (strip U (ProductoCreate.nombre pc) <> [] ->
   NoDup (nombres U (ProductoCreate.categorias pc)) ->
   exists prod,
     crear_producto U db producto_id ahora pc
     = (inr prod, dict_set db producto_id prod)) /\
  (strip U (ProductoCreate.nombre pc) = [] \/
   ~ NoDup (nombres U (ProductoCreate.categorias pc)) ->
   exists errs,
     crear_producto U db producto_id ahora pc = (inl (Invalid errs), db) /\
     (forall x, In x errs -> x = EmptyField \/ x = DuplicateCategory) /\
     (In EmptyField errs <-> strip U (ProductoCreate.nombre pc) = []) /\
     (In DuplicateCategory errs
      <-> ~ NoDup (nombres U (ProductoCreate.categorias pc)))).
Proof.
  intros H. pose proof (ProductoCreate_categorias_length U body pc H) as Hlen.
  destruct (after_ProductoCreate U body pc H) as (Hn & Hp & Hc & Hs).
  unfold crear_producto, Producto.init. rewrite Hn, Hp, Hc, Hs.
  unfold Producto.validar_nombre_producto.
  destruct (Producto.validar_categorias U (ProductoCreate.categorias pc))
    as [c|x] eqn:Ec.
  - assert (Hnd : NoDup (nombres U (ProductoCreate.categorias pc))).
    { now apply field_categorias_Ok_inv in Hc. }
    destruct (strip U (ProductoCreate.nombre pc)) eqn:Es; split.
    + intros Hne. now destruct Hne.
    + intros _. eexists. split; [reflexivity|]. simpl. intuition congruence.
    + intros _ _. eauto.
    + intros [Hb|Hd]; [discriminate|contradiction].
  - assert (Hnd : ~ NoDup (nombres U (ProductoCreate.categorias pc))).
    { intros Hnd. rewrite (validar_categorias_accepts U _ Hlen Hnd) in Ec.
      discriminate. }
    assert (Ex : x = DuplicateCategory).
    { rewrite (validar_categorias_duplicate U _ (proj2 Hlen) Hnd) in Ec.
      now injection Ec as <-. }
    subst x.
    destruct (strip U (ProductoCreate.nombre pc)) eqn:Es; split.
    + intros Hne. now destruct Hne.
    + intros _. eexists. split; [reflexivity|]. simpl. intuition congruence.
    + intros _ Hnd'. contradiction.
    + intros _. eexists. split; [reflexivity|]. simpl. intuition congruence.
Qed.

Lemma crear_producto_after_ProductoCreate_witness :
  (exists prod,
     crear_producto cpython [] (lit "id-1") 1000%Z producto_valido
     = (inr prod, dict_set [] (lit "id-1") prod)) /\
  (exists errs,
     crear_producto cpython db_1 (lit "id-2") 2000%Z producto_duplicadas
     = (inl (Invalid errs), db_1) /\
     In DuplicateCategory errs).
Proof.
  split.
  - apply (proj1 (crear_producto_after_ProductoCreate cpython [] (lit "id-1")
                    1000%Z
                    {| ProductoCreate.raw_nombre := lit "Manzana Roja";
                       ProductoCreate.raw_precio := precio_25_5;
                       ProductoCreate.raw_categorias :=
                         [{| Categoria.raw_nombre := lit "Frutas";
                             Categoria.raw_descripcion :=
                               Some (lit "Productos frutales frescos") |}];
                       ProductoCreate.raw_stock := 100 |}
                    producto_valido eq_refl)).
    + discriminate.
    + repeat constructor. intros [].
  - assert (Hnd : ~ NoDup (nombres cpython
                             (ProductoCreate.categorias producto_duplicadas))).
    { intros Hnd. inversion Hnd as [|? ? Hin _]. apply Hin. now left. }
    destruct (proj2 (crear_producto_after_ProductoCreate cpython db_1
                       (lit "id-2") 2000%Z body_duplicadas
                       producto_duplicadas eq_refl) (or_intror Hnd))
      as (errs & E & _ & _ & Hd).
    exists errs. split; [exact E|]. now apply Hd.
Defined.

(** ** Creating, listing and deleting *)

Lemma dict_get_None_keys (db : dict) k :
  dict_get db k = None <-> forall kv, In kv db -> str_eqb (fst kv) k = false.
Proof.
  induction db as [|[k' p'] r IH]; simpl.
  - split; auto. intros _ kv [].
  - destruct (str_eqb k' k) eqn:E.
    + split; [discriminate|]. intros H.
      specialize (H (k', p') (or_introl eq_refl)). simpl in H. congruence.
    + rewrite IH. split.
      * intros H kv [<-|Hin]; auto.
      * intros H kv Hin. apply H. now right.
Qed.

Lemma dict_set_absent (db : dict) k p :
  dict_get db k = None -> dict_set db k p = db ++ [(k, p)].
Proof.
  induction db as [|[k' p'] r IH]; simpl; auto.
  destruct (str_eqb k' k); [discriminate|]. intros H. now rewrite IH.
Qed.

Lemma dict_set_present (db : dict) k p old :
  dict_get db k = Some old ->
  exists l1 l2,
    db = l1 ++ (k, old) :: l2 /\ dict_set db k p = l1 ++ (k, p) :: l2 /\
    dict_get l1 k = None.
Proof.
  induction db as [|[k' p'] r IH]; simpl; [discriminate|].
  destruct (str_eqb k' k) eqn:E.
  - intros [= ->]. apply str_eqb_eq in E. subst k'.
    now exists [], r.
  - intros H. destruct (IH H) as (l1 & l2 & -> & -> & Hl).
    exists ((k', p') :: l1), l2. simpl. now rewrite E.
Qed.

Lemma dict_del_absent (db : dict) k :
  dict_get db k = None -> dict_del db k = db.
Proof.
  induction db as [|[k' p'] r IH]; simpl; auto.
  destruct (str_eqb k' k); [discriminate|]. simpl. intros H. now rewrite IH.
Qed.

Lemma dict_del_present (db : dict) k old :
  NoDup (map fst db) -> dict_get db k = Some old ->
  exists l1 l2, db = l1 ++ (k, old) :: l2 /\ dict_del db k = l1 ++ l2.
Proof.
  intros Hnd H. destruct (dict_set_present db k old old H)
    as (l1 & l2 & E & _ & Hl1).
  exists l1, l2. split; auto. subst db. unfold dict_del.
  rewrite filter_app. simpl. rewrite str_eqb_refl. simpl.
  fold (dict_del l1 k). fold (dict_del l2 k).
  rewrite (dict_del_absent l1 k Hl1). f_equal.
  apply dict_del_absent. apply dict_get_None_keys. intros [k' p'] Hin. simpl.
  apply str_eqb_neq. intros ->.
  rewrite map_app in Hnd. simpl in Hnd. apply NoDup_remove_2 in Hnd.
  apply Hnd. apply in_or_app. right.
  change k with (fst (k, p')). now apply in_map.
Qed.

Lemma init_inl_nonempty (U : Data) id_ n p cs s f errs :
  Producto.init U id_ n p cs s f = inl errs -> errs <> [].
Proof.
  unfold Producto.init.
  destruct (Producto.field_nombre U n), (Producto.field_precio p),
    (Producto.field_categorias U cs), (Producto.field_stock s);
    intros [= <-]; discriminate.
Qed.

(** X7. A create that succeeds files the product it returns under the new
    identifier: a get of that identifier returns it, it carries the
    identifier and the time of creation, its name, price, categories and
    stock are the validated ones, and a get of any other identifier gives
    what it gave before.  When the identifier is new the product is the
    last of the listing; when the identifier is already in the table the
    product takes the place of the one that was filed under it.  A create
    that fails raises at least one validation failure and leaves the table
    as it was. *)
Theorem crear_producto_stores
    (U : Data) (db : dict) (producto_id : str) (ahora : datetime)
    (producto : ProductoCreate.t) :
  (forall prod db',
     crear_producto U db producto_id ahora producto = (inr prod, db') ->
     obtener_producto db' producto_id = inr prod /\
     Producto.id prod = Some producto_id /\
     Producto.fecha_creacion prod = Some ahora /\
     Producto.nombre prod
     = title U (strip U (ProductoCreate.nombre producto)) /\
     Producto.precio prod = Float.round2 (ProductoCreate.precio producto) /\
     Producto.categorias prod = ProductoCreate.categorias producto /\
     Producto.stock prod = ProductoCreate.stock producto /\
     (forall k, k <> producto_id ->
        obtener_producto db' k = obtener_producto db k) /\
     (dict_get db producto_id = None ->
      obtener_productos db' = obtener_productos db ++ [prod]) /\
     (forall old, dict_get db producto_id = Some old ->
        exists l1 l2,
          obtener_productos db = l1 ++ old :: l2 /\
          obtener_productos db' = l1 ++ prod :: l2)) /\
  (forall e db',
     crear_producto U db producto_id ahora producto = (inl e, db') ->
     db' = db /\ exists errs, e = Invalid errs /\ errs <> []).
Proof.
  unfold crear_producto.
  destruct (Producto.init U _ _ _ _ _ _) as [errs|prod0] eqn:E; split;
    try discriminate.
  - intros e db' [= <- <-]. split; auto. exists errs. split; auto.
    exact (init_inl_nonempty U _ _ _ _ _ _ _ E).
  - intros prod db' [= <- <-].
    destruct (init_inr U _ _ _ _ _ _ _ E)
      as (n' & p' & s' & Hn & Hp & _ & Hs & Hprod).
    split; [unfold obtener_producto; now rewrite dict_get_set_same|].
    rewrite Hprod at 1 2 3 4 5 6. simpl.
    split; [reflexivity|]. split; [reflexivity|].
    split; [now apply field_nombre_Ok|].
    split; [now apply field_precio_Ok|].
    split; [reflexivity|].
    split; [now apply field_stock_Ok|].
    split; [|split].
    + intros k Hk. unfold obtener_producto.
      rewrite dict_get_set_other; auto.
    + intros Habs. unfold obtener_productos, dict_values.
      rewrite (dict_set_absent _ _ _ Habs), map_app. reflexivity.
    + intros old Hold.
      destruct (dict_set_present db producto_id prod0 old Hold)
        as (l1 & l2 & E1 & E2 & _).
      exists (map snd l1), (map snd l2).
      unfold obtener_productos, dict_values.
      rewrite E2. rewrite E1 at 1. now rewrite !map_app.
Qed.

Lemma crear_producto_stores_witness :
  obtener_producto db_1 (lit "id-1") = inr manzana_roja /\
  obtener_productos db_1 = obtener_productos [] ++ [manzana_roja].
Proof.
  destruct (proj1 (crear_producto_stores cpython [] (lit "id-1") 1000%Z
                     producto_valido) manzana_roja db_1 eq_refl)
    as (H1 & _ & _ & _ & _ & _ & _ & _ & H2 & _).
  split; [exact H1|]. apply H2. reflexivity.
Defined.

(** X8. In a table that the handlers built, an update puts the new
    product in the place that the old one had in the listing, and a delete
    takes the product out of the listing: in both cases the products
    before it and after it stay as they were, in the same order. *)
Theorem obtener_productos_keeps_order
    (U : Data) (rs : list request) (k : str) (actual : Producto.t) :
  dict_get (run U [] rs) k = Some actual ->
  exists l1 l2,
    obtener_productos (run U [] rs) = l1 ++ actual :: l2 /\
    (forall producto nuevo db',
       actualizar_producto U (run U [] rs) k producto = (inr nuevo, db') ->
       obtener_productos db' = l1 ++ nuevo :: l2) /\
    (forall r db',
       eliminar_producto (run U [] rs) k = (r, db') ->
       r = inr tt /\ obtener_productos db' = l1 ++ l2).
Proof.
  intros Hget.
  assert (Hnd : NoDup (map fst (run U [] rs))) by (apply run_keys; constructor).
  destruct (dict_del_present _ k actual Hnd Hget) as (l1 & l2 & E & Edel).
  exists (map snd l1), (map snd l2).
  unfold obtener_productos, dict_values.
  split; [rewrite E at 1; now rewrite map_app|]. split.
  - intros producto nuevo db'. unfold actualizar_producto. rewrite Hget.
    destruct (Producto.init U _ _ _ _ _ _); [discriminate|].
    intros [= <- <-].
    destruct (dict_set_present _ k t actual Hget)
      as (m1 & m2 & E1 & E2 & Hm1).
    rewrite E2.
    assert (Em : m1 = l1 /\ m2 = l2).
    { rewrite E in E1. clear -E1 Hm1 Hnd E.
      rewrite E in Hnd. clear E.
      revert m1 E1 Hm1. induction l1 as [|[k1 p1] l1 IH]; intros m1 E1 Hm1.
      - destruct m1 as [|[k0 p0] m1]; simpl in *.
        + now injection E1 as <-.
        + injection E1 as <- <- E1. simpl in Hm1.
          now rewrite str_eqb_refl in Hm1.
      - destruct m1 as [|[k0 p0] m1]; simpl in *.
        + injection E1 as -> -> E1. exfalso.
          inversion Hnd as [|? ? Hk _]; subst. apply Hk.
          rewrite map_app. apply in_or_app. right. now left.
        + injection E1 as <- <- E1. inversion Hnd; subst.
          destruct (str_eqb k1 k); [discriminate|].
          destruct (IH ltac:(assumption) m1 E1 Hm1) as [-> ->]. auto. }
    destruct Em as [-> ->]. now rewrite map_app.
  - intros r db'. unfold eliminar_producto. rewrite Hget.
    intros [= <- <-]. split; auto. rewrite Edel. now rewrite map_app.
Qed.

Lemma obtener_productos_keeps_order_witness :
  exists l1 l2,
    obtener_productos db_1 = l1 ++ manzana_roja :: l2 /\
    obtener_productos (snd (eliminar_producto db_1 (lit "id-1"))) = l1 ++ l2.
Proof.
  destruct (obtener_productos_keeps_order cpython
              [Crear (lit "id-1") 1000%Z producto_valido]
              (lit "id-1") manzana_roja eq_refl) as (l1 & l2 & H1 & _ & H3).
  exists l1, l2. split; [exact H1|].
  exact (proj2 (H3 _ _ eq_refl)).
Defined.

(** X9. A create under an identifier that is not in the table, followed by
    a delete of that identifier, gives back the table as it was before the
    create. *)
Theorem crear_then_eliminar_restores
    (U : Data) (db : dict) (producto_id : str) (ahora : datetime)
    (producto : ProductoCreate.t) (prod : Producto.t) (db' : dict) :
  dict_get db producto_id = None ->
  crear_producto U db producto_id ahora producto = (inr prod, db') ->
  eliminar_producto db' producto_id = (inr tt, db).
Proof.
  intros Habs. unfold crear_producto.
  destruct (Producto.init U _ _ _ _ _ _); [discriminate|].
  intros [= <- <-]. unfold eliminar_producto.
  rewrite dict_get_set_same, (dict_set_absent _ _ _ Habs). f_equal.
  unfold dict_del. rewrite filter_app. simpl. rewrite str_eqb_refl. simpl.
  rewrite app_nil_r. now apply dict_del_absent.
Qed.

Lemma crear_then_eliminar_restores_witness :
  eliminar_producto db_1 (lit "id-1") = (inr tt, []).
Proof.
  apply (crear_then_eliminar_restores cpython [] (lit "id-1") 1000%Z
           producto_valido manzana_roja db_1); reflexivity.
Defined.

(** X10. An update that succeeds, sent a second time, returns the same
    product and leaves the table as the first one left it. *)
Theorem actualizar_producto_twice
    (U : Data) (db : dict) (producto_id : str) (producto : ProductoCreate.t)
    (nuevo : Producto.t) (db' : dict) :
  actualizar_producto U db producto_id producto = (inr nuevo, db') ->
  actualizar_producto U db' producto_id producto = (inr nuevo, db').
Proof.
  unfold actualizar_producto.
  destruct (dict_get db producto_id) as [actual|] eqn:Hget; [|discriminate].
  destruct (Producto.init U _ _ _ _ _ _) as [errs|prod] eqn:E;
    [discriminate|].
  intros [= <- <-]. rewrite dict_get_set_same.
  assert (Ef : Producto.fecha_creacion prod = Producto.fecha_creacion actual).
  { destruct (init_inr U _ _ _ _ _ _ _ E)
      as (n' & p' & s' & _ & _ & _ & _ & ->). reflexivity. }
  rewrite Ef, E. f_equal. apply dict_set_same. apply dict_get_set_same.
Qed.

Lemma actualizar_producto_twice_witness :
  actualizar_producto cpython [(lit "id-1", manzana_verde)] (lit "id-1")
    producto_verde
  = (inr manzana_verde, [(lit "id-1", manzana_verde)]).
Proof.
  apply (actualizar_producto_twice cpython db_1). reflexivity.
Defined.

(** X11. A stock from 0 to 10000 passes the validation unchanged; a stock
    below 0 or above 10000 is rejected with [OutOfRange], by the field, by
    [Producto] whatever the other fields are, and by [ProductoCreate]. *)
Theorem stock_in_range_else_OutOfRange (U : Data) (s : Z) :
  ((0 <= s <= 10000)%Z -> Producto.field_stock s = Ok s) /\
  ((s < 0 \/ 10000 < s)%Z ->
   Producto.field_stock s = Err OutOfRange /\
   (forall id_ n p cs f, exists errs,
      Producto.init U id_ n p cs s f = inl errs /\ In OutOfRange errs) /\
   (forall n p cs, exists errs,
      ProductoCreate.init U
        {| ProductoCreate.raw_nombre := n; ProductoCreate.raw_precio := p;
           ProductoCreate.raw_categorias := cs;
           ProductoCreate.raw_stock := s |} = inl errs /\
      In OutOfRange errs)).
Proof.
  split.
  - intros H. unfold Producto.field_stock.
    rewrite (proj2 (conint_Ok 0 10000 s s) (conj H eq_refl)). simpl.
    unfold Producto.validar_stock.
    destruct (Z.ltb_spec s 0); [lia|].
    destruct (Z.ltb_spec 10000 s); [lia|]. reflexivity.
  - intros H.
    assert (Hc : conint 0 10000 s = Err OutOfRange).
    { unfold conint. destruct (Z.leb_spec 0 s); simpl; auto.
      destruct (Z.leb_spec s 10000); simpl; auto. lia. }
    assert (Hf : Producto.field_stock s = Err OutOfRange).
    { unfold Producto.field_stock. now rewrite Hc. }
    split; [exact Hf|]. split.
    + intros id_ n p cs f. unfold Producto.init. rewrite Hf.
      destruct (Producto.field_nombre U n), (Producto.field_precio p),
        (Producto.field_categorias U cs); eexists; split; try reflexivity;
        simpl; rewrite ?in_app_iff; simpl; tauto.
    + intros n p cs. unfold ProductoCreate.init. simpl. rewrite Hc.
      destruct (constr 1 100 n), (confloat _ _ p),
        (ProductoCreate.field_categorias U cs); eexists; split;
        try reflexivity; simpl; rewrite ?in_app_iff; simpl; tauto.
Qed.

Lemma stock_in_range_else_OutOfRange_witness :
  Producto.field_stock 100 = Ok 100%Z /\
  Producto.field_stock (-5) = Err OutOfRange.
Proof.
  split.
  - apply (proj1 (stock_in_range_else_OutOfRange cpython 100)). lia.
  - apply (proj2 (stock_in_range_else_OutOfRange cpython (-5))). lia.
Defined.

Lemma dict_get_In (db : dict) k p :
  dict_get db k = Some p -> In (k, p) db.
Proof.
  induction db as [|[k' p'] r IH]; simpl; [discriminate|].
  destruct (str_eqb k' k) eqn:E.
  - intros [= ->]. apply str_eqb_eq in E. subst. now left.
  - intros H. right. now apply IH.
Qed.

Lemma In_dict_get (db : dict) k p :
  NoDup (map fst db) -> In (k, p) db -> dict_get db k = Some p.
Proof.
  induction db as [|[k' p'] r IH]; simpl; intros Hnd; [intros []|].
  inversion Hnd as [|? ? Hk Hr]; subst.
  intros [[= -> ->]|Hin].
  - now rewrite str_eqb_refl.
  - destruct (str_eqb k' k) eqn:E; [|now apply IH].
    apply str_eqb_eq in E. subst k'. exfalso. apply Hk.
    change k with (fst (k, p)). now apply in_map.
Qed.

(** X12. In a table that the handlers built, the listing and the get
    agree: a product is in the listing exactly when a get of the identifier
    it carries returns it.  The listing by category returns the products
    that a get returns and that have a category with the asked name,
    ignoring case. *)
Theorem listings_agree_with_get
    (U : Data) (rs : list request) (p : Producto.t) :
  (In p (obtener_productos (run U [] rs)) <->
   exists k, Producto.id p = Some k /\
             obtener_producto (run U [] rs) k = inr p) /\
  (forall nombre_categoria,
     In p (obtener_productos_por_categoria U (run U [] rs) nombre_categoria)
     <-> (exists k, Producto.id p = Some k /\
                    obtener_producto (run U [] rs) k = inr p) /\
         exists categoria,
           In categoria (Producto.categorias p) /\
           eq_ignoring_case U (Categoria.nombre categoria) nombre_categoria).
Proof.
  assert (Hnd : NoDup (map fst (run U [] rs))) by (apply run_keys; constructor).
  pose proof (keyed_run U rs [] keyed_empty) as Hkeyed.
  assert (H1 : In p (obtener_productos (run U [] rs)) <->
               exists k, Producto.id p = Some k /\
                         obtener_producto (run U [] rs) k = inr p).
  { unfold obtener_productos, dict_values, obtener_producto. split.
    - intros Hin. apply in_map_iff in Hin as ([k p'] & <- & Hin). simpl.
      pose proof (In_dict_get _ _ _ Hnd Hin) as Hget.
      exists k. rewrite Hget. split; auto.
    - intros (k & _ & Hget).
      destruct (dict_get (run U [] rs) k) as [p'|] eqn:E; [|discriminate].
      injection Hget as ->. apply dict_get_In in E.
      change p with (snd (k, p)). now apply in_map. }
  split; [exact H1|].
  intros q. unfold obtener_productos_por_categoria.
  rewrite recorrer_filter. simpl. rewrite filter_In, matches_spec.
  fold (obtener_productos (run U [] rs)). now rewrite H1.
Qed.

(** X13. A price that the price field accepts is a positive finite float:
    a NaN, an infinity, a zero and a negative number are all rejected with
    [OutOfRange].  The check of [validar_precio] alone would let a NaN
    through; the constraint [gt=0] of the field is what stops it. *)
Theorem precio_accepted_is_finite (p : Float.float) :
  (forall r, Producto.field_precio p = Ok r ->
     exists m e, p = S754_finite false m e) /\
  ((forall m e, p <> S754_finite false m e) ->
   Producto.field_precio p = Err OutOfRange) /\
  Producto.validar_precio S754_nan = Ok S754_nan.
Proof.
  assert (H : (exists m e, p = S754_finite false m e) \/
              Producto.field_precio p = Err OutOfRange).
  { destruct p as [s|s| |s m e].
    - right. now destruct s.
    - right. now destruct s.
    - now right.
    - destruct s; [now right|]. left. eauto. }
  split; [|split].
  - intros r Hr. destruct H as [H|H]; auto. rewrite H in Hr. discriminate.
  - intros Hne. destruct H as [(m & e & H)|H]; auto. now destruct (Hne m e).
  - reflexivity.
Qed.

Lemma precio_accepted_is_finite_witness :
  exists m e, precio_25_5 = S754_finite false m e.
Proof.
  apply (proj1 (precio_accepted_is_finite precio_25_5) precio_25_5).
  reflexivity.
Defined.

(** X14. A delete touches one entry only: a get of any other identifier
    returns what it returned before, whether the delete succeeds or fails
    with [NotFound]; and a delete that fails leaves the table as it was. *)
Theorem eliminar_producto_frame (db : dict) (producto_id : str) :
  (forall k, k <> producto_id ->
     obtener_producto (snd (eliminar_producto db producto_id)) k
     = obtener_producto db k) /\
  (forall e db', eliminar_producto db producto_id = (inl e, db') ->
     e = NotFound /\ db' = db /\ dict_get db producto_id = None).
Proof.
  unfold eliminar_producto, obtener_producto.
  destruct (dict_get db producto_id) eqn:E; simpl; split.
  - intros k Hk. rewrite dict_get_del_other; auto.
  - discriminate.
  - reflexivity.
  - intros e db' [= <- <-]. auto.
Qed.

Lemma eliminar_producto_frame_witness :
  obtener_producto (snd (eliminar_producto db_1 (lit "id-9"))) (lit "id-1")
  = obtener_producto db_1 (lit "id-1").
Proof.
  apply (proj1 (eliminar_producto_frame db_1 (lit "id-9"))). discriminate.
Defined.

(** X15. A name made of simply cased characters that the name field
    accepts comes out trimmed and not empty: it has no white space at
    either end, and it has as many characters as the trimmed input, so no
    more than the input.  This holds for the name of a product and for the
    name of a category. *)
Theorem nombre_normalized_is_trimmed (U : Data) (v n : str) :
  forallb (simple_casing U) v = true ->
  Producto.field_nombre U v = Ok n \/ Categoria.field_nombre U v = Ok n ->
  strip U n = n /\ n <> [] /\
  length n = length (strip U v) /\ (length n <= length v)%nat.
Proof.
  intros Hs H.
  destruct (title_strip_twice U v Hs) as (Hstrip & _ & Hlen).
  assert (Hn : n = title U (strip U v) /\ strip U v <> []).
  { destruct H as [H|H]; revert H;
      [unfold Producto.field_nombre|unfold Categoria.field_nombre];
      unfold constr, Producto.validar_nombre_producto,
        Categoria.validar_nombre_categoria;
      (destruct (length v <? 1)%nat; [discriminate|]);
      [destruct (100 <? length v)%nat|destruct (50 <? length v)%nat];
      try discriminate; simpl;
      (destruct (strip U v); [discriminate|]);
      intros [= <-]; split; auto; discriminate. }
  destruct Hn as [-> Hne]. pose proof (strip_length U v) as Hle.
  repeat split; auto; try lia.
  intros E. apply Hne. apply length_zero_iff_nil. rewrite <- Hlen, E.
  reflexivity.
Qed.

Lemma nombre_normalized_is_trimmed_witness :
  strip cpython (lit "Zanahoria Naranja") = lit "Zanahoria Naranja".
Proof.
  apply (nombre_normalized_is_trimmed cpython (lit "   zanahoria naranja   ")
           (lit "Zanahoria Naranja")).
  - reflexivity.
  - left. reflexivity.
Defined.
